(** * KickShop storefront (src/app/frontend/src/App.js)

    A shallow embedding of the client-side state layer of App.js: the
    session store (AuthProvider), the cart synchronisation engine
    (CartProvider), the cart enrichment resolver (CartModal) and the
    catalogue filter (Home.filterProducts), followed by the properties
    proved about them. *)

From Stdlib Require Import ZArith QArith Ascii String List Bool Lia.
From stdpp Require Import base option list strings gmap fin_maps.

Local Open Scope string_scope.
Local Open Scope list_scope.
Local Open Scope Z_scope.

(** ** JavaScript values used by the component code *)

Module Js.

(** A JS string is a sequence of UTF-16 code units.  The model keeps the
    strings whose code units are below 256 (Basic Latin and Latin-1), one
    [ascii] per code unit; on these [String.prototype.toLowerCase] works
    code unit by code unit: A-Z and the Latin-1 capitals U+00C0..U+00DE
    (U+00D7, the multiplication sign, excepted) move up by 32 and every
    other code unit stays. *)
Definition isUpperCase (c : ascii) : bool :=
  let n := N_of_ascii c in
  ((65 <=? n) && (n <=? 90) || (192 <=? n) && (n <=? 222) && negb (n =? 215))%N.

Definition lowerCodeUnit (c : ascii) : ascii :=
  if isUpperCase c then ascii_of_N (N_of_ascii c + 32) else c.

Fixpoint toLowerCase (s : string) : string :=
  match s with
  | EmptyString => EmptyString
  | String c s' => String (lowerCodeUnit c) (toLowerCase s')
  end.

(** [s.includes(searchString)]: [searchString] occurs in [s] at some
    position (the empty string occurs in every string). *)
Fixpoint includes (s searchString : string) : bool :=
  String.prefix searchString s ||
  match s with
  | EmptyString => false
  | String _ s' => includes s' searchString
  end.

(** ToBoolean on a string: only the empty string is falsy. *)
Definition truthy (s : string) : bool := negb (String.eqb s "").

(** ToBoolean on a value that is a string or null. *)
Definition truthy_opt (v : option string) : bool :=
  match v with
  | Some s => truthy s
  | None => false
  end.

End Js.

(** ** Data model

    Identifiers are strings.  JS numbers are kept exact: a quantity is an
    integer, a price and a shoe size are rationals (rounding of doubles
    is outside the model). *)

Module UserProfile.
Record t := mk { id : string; email : string; full_name : string }.
End UserProfile.

Module CartItem.
Record t := mk { id : string; product_id : string; size : Q; quantity : Z }.
End CartItem.

Module Product.
Record t := mk {
  id : string;
  name : string;
  brand : string;
  category : string;
  price : Q;
  description : string;
  image_url : string;
  sizes : list Q
}.
End Product.

(** ** Home: the catalogue filter *)

Module Home.

(** [filterProducts] reads the component state [products],
    [selectedCategory], [selectedBrand] and [searchTerm]; the result is
    the array handed to [setFilteredProducts]. *)
Definition filterProducts (products : list Product.t)
    (selectedCategory selectedBrand searchTerm : string) : list Product.t :=
  let filtered := products in
  let filtered :=
    if negb (String.eqb selectedCategory "all")
    then List.filter (fun product => String.eqb (Product.category product) selectedCategory) filtered
    else filtered in
  let filtered :=
    if negb (String.eqb selectedBrand "all")
    then List.filter (fun product => String.eqb (Product.brand product) selectedBrand) filtered
    else filtered in
  let filtered :=
    if Js.truthy searchTerm
    then List.filter (fun product =>
           Js.includes (Js.toLowerCase (Product.name product)) (Js.toLowerCase searchTerm) ||
           Js.includes (Js.toLowerCase (Product.description product)) (Js.toLowerCase searchTerm))
         filtered
    else filtered in
  filtered.

End Home.

(** ** The network and the side-effect sink *)

(** An axios call settles in one of two ways: the promise resolves with
    [response.data], or it rejects with an error, of which the code reads
    at most [error.response?.data?.detail]. *)
Inductive Response (A : Type) : Type :=
| Resolved (data : A)
| Rejected (detail : option string).
Arguments Resolved {A} data.
Arguments Rejected {A} detail.

Definition resolved {A} (r : Response A) : bool :=
  match r with
  | Resolved _ => true
  | Rejected _ => false
  end.

(** The round trips of the session, cart and product-detail endpoints.
    [bearer] is the token interpolated into the Authorization header. *)
Inductive Request : Type :=
| PostAuthLogin (email password : string)
| PostAuthRegister (email password full_name : string)
| GetAuthMe (bearer : option string)
| GetCart (bearer : option string)
| PostCartAdd (bearer : option string) (product_id : string) (size : Q) (quantity : Z)
| DeleteCart (bearer : option string) (item_id : string)
| GetProduct (product_id : string).

Definition cartEndpoint (r : Request) : bool :=
  match r with
  | GetCart _ | PostCartAdd _ _ _ _ | DeleteCart _ _ => true
  | _ => false
  end.

(** What a run leaves behind, in the order it happens: requests going
    out, promises settling, toasts and console output. *)
Inductive Event : Type :=
| Issued (r : Request)
| Settled (r : Request) (ok : bool)
| ToastSuccess (message : string)
| ToastError (message : string)
| ConsoleError (message : string).

(** The user-facing notifications are the toasts. *)
Definition isToast (e : Event) : bool :=
  match e with
  | ToastSuccess _ | ToastError _ => true
  | _ => false
  end.

Definition notifications (log : list Event) : list Event := List.filter isToast log.

Definition issuedRequest (e : Event) : option Request :=
  match e with
  | Issued r => Some r
  | _ => None
  end.

Definition requests (log : list Event) : list Request := omap issuedRequest log.

(** ** Component state *)

Record App : Type := mkApp {
  user : option UserProfile.t;            (* AuthProvider: useState(null) *)
  token : option string;                  (* AuthProvider: useState(localStorage.getItem('token')) *)
  localStorage : option string;           (* the 'token' key of localStorage *)
  cartItems : list CartItem.t;            (* CartProvider: useState([]) *)
  cartCount : Z;                          (* CartProvider: useState(0) *)
  products : gmap string Product.t        (* CartModal: useState({}) *)
}.

(** [products] is a JS object used as a map from [product_id] to the
    product fetched for it: the finite map holds the properties of the
    object itself.  What a read of [products[key]] gives, the members of
    [Object.prototype] included, is [JsObject.get] below. *)

(** An action runs on the state and returns its value, the state it
    leaves and the events it caused. *)
Definition Act (A : Type) : Type := App -> A * App * list Event.

#[global] Instance Act_ret : MRet Act := fun A a s => (a, s, []).

#[global] Instance Act_bind : MBind Act := fun A B f m s =>
  let '(a, s1, log1) := m s in
  let '(b, s2, log2) := f a s1 in
  (b, s2, log1 ++ log2).

Definition value {A} (out : A * App * list Event) : A := out.1.1.
Definition after {A} (out : A * App * list Event) : App := out.1.2.
Definition events {A} (out : A * App * list Event) : list Event := out.2.

Definition read {A} (field : App -> A) : Act A := fun s => (field s, s, []).
Definition emit (e : Event) : Act unit := fun s => (tt, s, [e]).
Definition update (f : App -> App) : Act unit := fun s => (tt, f s, []).

Definition setUser (v : option UserProfile.t) : Act unit :=
  update (fun s => mkApp v (token s) (localStorage s) (cartItems s) (cartCount s) (products s)).
Definition setToken (v : option string) : Act unit :=
  update (fun s => mkApp (user s) v (localStorage s) (cartItems s) (cartCount s) (products s)).
Definition localStorage_setItem (v : string) : Act unit :=
  update (fun s => mkApp (user s) (token s) (Some v) (cartItems s) (cartCount s) (products s)).
Definition localStorage_removeItem : Act unit :=
  update (fun s => mkApp (user s) (token s) None (cartItems s) (cartCount s) (products s)).
Definition setCartItems (v : list CartItem.t) : Act unit :=
  update (fun s => mkApp (user s) (token s) (localStorage s) v (cartCount s) (products s)).
Definition setCartCount (v : Z) : Act unit :=
  update (fun s => mkApp (user s) (token s) (localStorage s) (cartItems s) v (products s)).
Definition setProducts (v : gmap string Product.t) : Act unit :=
  update (fun s => mkApp (user s) (token s) (localStorage s) (cartItems s) (cartCount s) v).

Definition toast_success (message : string) : Act unit := emit (ToastSuccess message).
Definition toast_error (message : string) : Act unit := emit (ToastError message).
Definition console_error (message : string) : Act unit := emit (ConsoleError message).

(** [await axios...]: the request goes out, the caller is suspended, and
    it resumes when the promise settles, with the server's answer. *)
Definition await {A} (r : Request) (response : Response A) : Act (Response A) :=
  emit (Issued r);; emit (Settled r (resolved response));; mret response.

(** ** AuthProvider *)

Module AuthProvider.

Definition logout : Act unit :=
  setUser None;;
  setToken None;;
  localStorage_removeItem;;
  toast_success "Déconnexion réussie".

Definition fetchUser (response : Response UserProfile.t) : Act unit :=
  tok ← read token;
  r ← await (GetAuthMe tok) response;
  match r with
  | Resolved data => setUser (Some data)
  | Rejected _ => console_error "Failed to fetch user:";; logout
  end.

(** [fetchUser] up to its [await]: the request is on its way. *)
Definition fetchUser_issue : Act Request :=
  tok ← read token;
  emit (Issued (GetAuthMe tok));;
  mret (GetAuthMe tok).

(** [fetchUser] from its [await] on. *)
Definition fetchUser_resume (r : Request) (response : Response UserProfile.t) : Act unit :=
  emit (Settled r (resolved response));;
  match response with
  | Resolved data => setUser (Some data)
  | Rejected _ => console_error "Failed to fetch user:";; logout
  end.

Definition login (email password : string) (response : Response string) : Act bool :=
  r ← await (PostAuthLogin email password) response;
  match r with
  | Resolved access_token =>
      setToken (Some access_token);;
      localStorage_setItem access_token;;
      toast_success "Connexion réussie!";;
      mret true
  | Rejected _ =>
      toast_error "Email ou mot de passe incorrect";;
      mret false
  end.

(** [error.response?.data?.detail || fallback] *)
Definition detailOr (detail : option string) (fallback : string) : string :=
  match detail with
  | Some d => if Js.truthy d then d else fallback
  | None => fallback
  end.

Definition register (email password full_name : string) (response : Response unit) : Act bool :=
  r ← await (PostAuthRegister email password full_name) response;
  match r with
  | Resolved _ =>
      toast_success "Inscription réussie! Vous pouvez maintenant vous connecter.";;
      mret true
  | Rejected detail =>
      toast_error (detailOr detail "Erreur lors de l'inscription");;
      mret false
  end.

(** The body of [useEffect(..., [token])]: [fetchUser()] is called and
    not awaited, so the effect ends with the request on its way, if it
    made one. *)
Definition tokenEffect : Act (option Request) :=
  tok ← read token;
  if Js.truthy_opt tok
  then pending ← fetchUser_issue; mret (Some pending)
  else mret None.

End AuthProvider.

(** ** CartProvider *)

Module CartProvider.

(** [fetchCart] up to its [await]: the request is on its way. *)
Definition fetchCart_issue : Act Request :=
  tok ← read token;
  emit (Issued (GetCart tok));;
  mret (GetCart tok).

(** [fetchCart] from its [await] on. *)
Definition fetchCart_resume (r : Request) (response : Response (list CartItem.t)) : Act unit :=
  emit (Settled r (resolved response));;
  match response with
  | Resolved data =>
      setCartItems data;;
      setCartCount (fold_left (fun sum item => sum + CartItem.quantity item) data 0)
  | Rejected _ => console_error "Failed to fetch cart:"
  end.

Definition fetchCart (response : Response (list CartItem.t)) : Act unit :=
  r ← fetchCart_issue;
  fetchCart_resume r response.

(** [addToCart] and [removeFromCart] call [fetchCart()] without awaiting
    it: its request goes out at the call, the caller's next statement
    (the toast) runs, and the rest of [fetchCart] runs when its promise
    settles. *)
Definition addToCart (productId : string) (size : Q) (quantity : option Z)
    (response : Response unit) (cart : Response (list CartItem.t)) : Act unit :=
  let quantity := default 1 quantity in
  tok ← read token;
  r ← await (PostCartAdd tok productId size quantity) response;
  match r with
  | Resolved _ =>
      pending ← fetchCart_issue;
      toast_success "Produit ajouté au panier!";;
      fetchCart_resume pending cart
  | Rejected _ => toast_error "Erreur lors de l'ajout au panier"
  end.

Definition removeFromCart (itemId : string)
    (response : Response unit) (cart : Response (list CartItem.t)) : Act unit :=
  tok ← read token;
  r ← await (DeleteCart tok itemId) response;
  match r with
  | Resolved _ =>
      pending ← fetchCart_issue;
      toast_success "Produit retiré du panier";;
      fetchCart_resume pending cart
  | Rejected _ => toast_error "Erreur lors de la suppression"
  end.

(** The body of [useEffect(..., [token])]: [fetchCart()] is called and
    not awaited, so the effect ends with the request on its way, if it
    made one. *)
Definition tokenEffect : Act (option Request) :=
  tok ← read token;
  if Js.truthy_opt tok
  then pending ← fetchCart_issue; mret (Some pending)
  else setCartItems [];; setCartCount 0;; mret None.

End CartProvider.

(** ** Plain objects and numbers

    [products] is a plain object used as a map: an object literal, whose
    prototype is [Object.prototype].  Reading [object[key]] gives the
    object's own property when it has one; otherwise the member of
    [Object.prototype] of that name, when there is one; and [undefined]
    otherwise.  (Writing [object[key]] adds a property to the object
    itself, except for the key [__proto__], which names the prototype;
    the properties that follow a resolver run with a rendering keep that
    key out of the cart.) *)

Module JsObject.

(** The names of the members of [Object.prototype]. *)
Definition prototypeNames : list string :=
  ["constructor"; "__defineGetter__"; "__defineSetter__"; "hasOwnProperty";
   "__lookupGetter__"; "__lookupSetter__"; "isPrototypeOf"; "propertyIsEnumerable";
   "toString"; "valueOf"; "__proto__"; "toLocaleString"].

Definition inherited (key : string) : bool :=
  existsb (String.eqb key) prototypeNames.

Inductive Read (A : Type) : Type :=
| Own (value : A)
| Member (key : string)
| Undefined.
Arguments Own {A} value.
Arguments Member {A} key.
Arguments Undefined {A}.

(** An object's own properties are a finite map. *)
Definition get {A} (object : gmap string A) (key : string) : Read A :=
  match object !! key with
  | Some value => Own value
  | None => if inherited key then Member key else Undefined
  end.

(** ToBoolean: objects and functions are truthy, [undefined] is falsy. *)
Definition truthy {A} (value : Read A) : bool :=
  match value with
  | Own _ | Member _ => true
  | Undefined => false
  end.

(** The [name] of a member of [Object.prototype]: the members are
    functions, named as the property, except [constructor], which is the
    function [Object], and [__proto__], which reads as [Object.prototype]
    itself and has no [name]. *)
Definition memberName (key : string) : option string :=
  if String.eqb key "constructor" then Some "Object"
  else if String.eqb key "__proto__" then None
  else Some key.

End JsObject.

Module JsNumber.

(** A number of the model: a rational, or NaN. *)
Inductive t : Type :=
| Num (q : Q)
| NaN.

(** [price * quantity], where [price] may be [undefined]. *)
Definition times (price : option Q) (quantity : Z) : t :=
  match price with
  | Some p => Num (p * inject_Z quantity)
  | None => NaN
  end.

(** [a + b]. *)
Definition plus (a b : t) : t :=
  match a, b with
  | Num x, Num y => Num (x + y)
  | _, _ => NaN
  end.

End JsNumber.

(** ** CartModal *)

Module CartModal.

(** The [for (const item of cartItems)] loop of [fetchProductDetails]:
    one awaited round trip per item, [responses i] being the answer to
    the i-th of them; a failed one is logged and leaves [productMap] as
    it is. *)
Fixpoint fetchEach (items : list CartItem.t) (i : nat)
    (responses : nat -> Response Product.t)
    (productMap : gmap string Product.t) : Act (gmap string Product.t) :=
  match items with
  | [] => mret productMap
  | item :: rest =>
      r ← await (GetProduct (CartItem.product_id item)) (responses i);
      productMap ← match r with
                   | Resolved data => mret (<[CartItem.product_id item := data]> productMap)
                   | Rejected _ => console_error "Failed to fetch product:";; mret productMap
                   end;
      fetchEach rest (S i) responses productMap
  end.

Definition fetchProductDetails (responses : nat -> Response Product.t) : Act unit :=
  items ← read cartItems;
  productMap ← fetchEach items 0%nat responses ∅;
  setProducts productMap.

(** The body of [useEffect(..., [cartItems])]. *)
Definition cartItemsEffect (responses : nat -> Response Product.t) : Act unit :=
  items ← read cartItems;
  if (0 <? length items)%nat then fetchProductDetails responses else mret tt.

(** [Array.prototype.reduce] with a callback that may throw: [None] is a
    thrown exception, which ends the reduction. *)
Fixpoint reduce {A B} (callback : B -> A -> option B) (l : list A) (initial : B) : option B :=
  match l with
  | [] => Some initial
  | x :: l' => acc ← callback initial x; reduce callback l' acc
  end.

(** [product.field], for a value read from [products], with what the
    members of [Object.prototype] have under that name: reading a
    property of [undefined] throws a TypeError ([None]); what is read is
    a value or [undefined]. *)
Definition prop {A B} (product : JsObject.Read A) (field : A -> B)
    (ofMember : string -> option B) : option (option B) :=
  match product with
  | JsObject.Own p => Some (Some (field p))
  | JsObject.Member key => Some (ofMember key)
  | JsObject.Undefined => None
  end.

(** No member of [Object.prototype] has a property of this name. *)
Definition absent {B} (key : string) : option B := None.

Definition total (cartItems : list CartItem.t) (products : gmap string Product.t)
    : option JsNumber.t :=
  reduce (fun sum item =>
            let product := JsObject.get products (CartItem.product_id item) in
            line ← (if JsObject.truthy product
                    then price ← prop product Product.price absent;
                         Some (JsNumber.times price (CartItem.quantity item))
                    else Some (JsNumber.Num 0));
            Some (JsNumber.plus sum line))
         cartItems (JsNumber.Num 0).

(** What the callback of [cartItems.map] returns for one item: [null],
    which React leaves out of the list, or the row of the item, in which
    a field is a value or [undefined]. *)
Inductive Element : Type :=
| Null
| Row (key : string) (image_url name : option string) (size : Q) (price : option Q)
      (quantity : Z).

Definition renderItem (products : gmap string Product.t) (item : CartItem.t) : option Element :=
  let product := JsObject.get products (CartItem.product_id item) in
  if negb (JsObject.truthy product) then Some Null
  else
    image_url ← prop product Product.image_url absent;
    name ← prop product Product.name JsObject.memberName;
    price ← prop product Product.price absent;
    Some (Row (CartItem.id item) image_url name (CartItem.size item) price (CartItem.quantity item)).

Definition renderItems (cartItems : list CartItem.t) (products : gmap string Product.t)
    : option (list Element) :=
  mapM (renderItem products) cartItems.

(** The rows React shows. *)
Definition shown (elements : list Element) : list Element :=
  List.filter (fun e => match e with Null => false | Row _ _ _ _ _ _ => true end) elements.

End CartModal.

(** ** Rendering: effects that depend on [token]

    React runs an effect with dependency list [[token]] after the first
    render and after every render in which [token] differs from the
    render before; children run theirs first (CartProvider, then
    AuthProvider).  With a token both effects send their request and
    neither waits: the two round trips are in flight together, and
    [server] holds the two answers and which of them comes first. *)

Record Server : Type := mkServer {
  me : Response UserProfile.t;
  cart : Response (list CartItem.t);
  meFirst : bool
}.

(** The two effects of one render, and the requests they leave
    pending. *)
Definition effects : Act (option Request * option Request) :=
  pendingCart ← CartProvider.tokenEffect;
  pendingUser ← AuthProvider.tokenEffect;
  mret (pendingCart, pendingUser).

(** The rest of [fetchCart], once its answer is there. *)
Definition settleCart (pending : option Request) (server : Server) : Act unit :=
  match pending with
  | Some r => CartProvider.fetchCart_resume r (cart server)
  | None => mret tt
  end.

(** The rest of [fetchUser], once its answer is there. *)
Definition settleUser (pending : option Request) (server : Server) : Act unit :=
  match pending with
  | Some r => AuthProvider.fetchUser_resume r (me server)
  | None => mret tt
  end.

(** The render after [fetchUser] has finished.  The token is then the
    one it started with, and no effect runs, or it is null after the
    logout, and the effects run with no token, where they make no
    request ([effects_without_token]). *)
Definition renderAfterUser (before : option string) : Act unit :=
  tok ← read token;
  if bool_decide (tok = before) then mret tt
  else effects;; mret tt.

(** The effects of a render and the round trips they start, to their
    end. *)
Definition tokenEffects (server : Server) : Act unit :=
  before ← read token;
  pending ← effects;
  if meFirst server
  then
    settleUser pending.2 server;;
    renderAfterUser before;;
    settleCart pending.1 server
  else
    settleCart pending.1 server;;
    settleUser pending.2 server;;
    renderAfterUser before.

(** After a handler that started with token [prev]: if the token
    changed, the effects run. *)
Definition commit (prev : option string) (server : Server) : Act unit :=
  tok ← read token;
  if bool_decide (tok = prev) then mret tt
  else tokenEffects server.

(** A handler called from the user interface, and the renders it causes. *)
Definition gesture {A} (handler : Act A) (server : Server) : Act A :=
  prev ← read token;
  a ← handler;
  commit prev server;;
  mret a.

(** The state at the first render, [stored] being what localStorage holds. *)
Definition initial (stored : option string) : App :=
  mkApp None stored stored [] 0 ∅.

(** The first render runs the effects. *)
Definition mount (server : Server) : Act unit :=
  tokenEffects server.

(** ** The user interface

    What the interface lets the user do.  Header shows the login form
    only while [user] is null and the logout and cart buttons only when
    it is not; [ProductCard.handleAddToCart] refuses to open the size
    dialog while [user] is null, and [confirmAddToCart] calls
    [addToCart(product.id, parseFloat(selectedSize))], leaving the
    quantity to its default. *)

Inductive Gesture : Type :=
| Login (email password : string) (response : Response string)
| Register (email password full_name : string) (response : Response unit)
| Logout
| AddToCart (productId : string) (size : Q) (response : Response unit)
| RemoveFromCart (itemId : string) (response : Response unit).

Definition handle (g : Gesture) (resync : Response (list CartItem.t)) : Act unit :=
  match g with
  | Login email password response =>
      AuthProvider.login email password response;; mret tt
  | Register email password full_name response =>
      AuthProvider.register email password full_name response;; mret tt
  | Logout => AuthProvider.logout
  | AddToCart productId size response =>
      CartProvider.addToCart productId size None response resync
  | RemoveFromCart itemId response =>
      CartProvider.removeFromCart itemId response resync
  end.

Definition enabled (g : Gesture) (s : App) : Prop :=
  match g with
  | Login _ _ _ | Register _ _ _ _ => user s = None
  | Logout | AddToCart _ _ _ | RemoveFromCart _ _ => user s <> None
  end.

(** The states the application goes through: the one after the first
    render, the one after each gesture, and the one after the effect of
    the cart modal, each taken when the requests it started have been
    answered, in either order of the two answers that follow a change of
    the token. *)
Inductive reachable : App -> Prop :=
| reachable_mount stored server :
    reachable (after (mount server (initial stored)))
| reachable_gesture s g resync server :
    reachable s -> enabled g s ->
    reachable (after (gesture (handle g resync) server s))
| reachable_cartItemsEffect s responses :
    reachable s ->
    reachable (after (CartModal.cartItemsEffect responses s)).

(** ** CartButton and the head of the cart modal *)

Module CartButton.

(** [{count > 0 && <Badge>{count}</Badge>}]: the badge and the number in
    it, or no badge. *)
Definition badge (count : Z) : option Z :=
  if 0 <? count then Some count else None.

End CartButton.

Module CartModalView.

(** The number in the title, [Mon Panier ({cartItems.length})]. *)
Definition title (cartItems : list CartItem.t) : nat := length cartItems.

(** [cartItems.length === 0], which shows "Votre panier est vide". *)
Definition emptyMessage (cartItems : list CartItem.t) : bool :=
  (length cartItems =? 0)%nat.

End CartModalView.

(** ** AuthModal *)

Module AuthModal.

(** The form, and [open], which Header passes down with [onClose]. *)
Record State : Type := mk {
  open : bool;
  isLogin : bool;
  email : string;
  password : string;
  fullName : string
}.

(** [handleSubmit]; the value is the form after it. *)
Definition handleSubmit (m : State)
    (loginResponse : Response string) (registerResponse : Response unit) : Act State :=
  if isLogin m then
    success ← AuthProvider.login (email m) (password m) loginResponse;
    if success : bool
    then mret (mk false (isLogin m) "" "" (fullName m))
    else mret m
  else
    success ← AuthProvider.register (email m) (password m) (fullName m) registerResponse;
    if success : bool
    then mret (mk (open m) true (email m) (password m) "")
    else mret m.

End AuthModal.

(** ** ProductCard *)

Module ProductCard.

Record State : Type := mk {
  selectedSize : string;
  showSizeDialog : bool
}.

Definition handleAddToCart (c : State) : Act State :=
  u ← read user;
  if negb (bool_decide (is_Some u))
  then toast_error "Veuillez vous connecter pour ajouter au panier";; mret c
  else mret (mk (selectedSize c) true).

(** [onValueChange={setSelectedSize}] of the size picker. *)
Definition setSelectedSize (value : string) (c : State) : State :=
  mk value (showSizeDialog c).

Section Confirm.

(** The global [parseFloat], from the text of a size to the number. *)
Variable parseFloat : string -> Q.

(** [addToCart] is called and not awaited; the dialog closes and the
    selection is reset at once. *)
Definition confirmAddToCart (product : Product.t) (c : State)
    (response : Response unit) (cart : Response (list CartItem.t)) : Act State :=
  if Js.truthy (selectedSize c)
  then
    CartProvider.addToCart (Product.id product) (parseFloat (selectedSize c)) None
      response cart;;
    mret (mk "" false)
  else mret c.

(** The gesture as the interface allows it: the button of the card, then,
    if the dialog is open, a size and the confirm button in it. *)
Definition addFlow (product : Product.t) (value : string) (c : State)
    (response : Response unit) (cart : Response (list CartItem.t)) : Act State :=
  c1 ← handleAddToCart c;
  if showSizeDialog c1
  then confirmAddToCart product (setSelectedSize value c1) response cart
  else mret c1.

End Confirm.

End ProductCard.

(** * Vocabulary of the properties *)

(** ** The catalogue filter *)

(** The three criteria of the specification, as one test on a product. *)
Definition keeps (selectedCategory selectedBrand searchTerm : string) (product : Product.t) : bool :=
  (String.eqb selectedCategory "all" || String.eqb (Product.category product) selectedCategory) &&
  (String.eqb selectedBrand "all" || String.eqb (Product.brand product) selectedBrand) &&
  (String.eqb searchTerm "" ||
   Js.includes (Js.toLowerCase (Product.name product)) (Js.toLowerCase searchTerm) ||
   Js.includes (Js.toLowerCase (Product.description product)) (Js.toLowerCase searchTerm)).

(** Case-insensitive occurrence, stated without the functions of the
    code.  The letters that have two forms among the code units below
    256, each capital with its small form: the alphabet, and the
    accented letters of Latin-1 by their code points, U+00C0..U+00D6
    with U+00E0..U+00F6 and U+00D8..U+00DE with U+00F8..U+00FE. *)
Definition letterCases : list (ascii * ascii) :=
  combine
    (list_ascii_of_string "ABCDEFGHIJKLMNOPQRSTUVWXYZ" ++
     map ascii_of_nat (seq 192 23 ++ seq 216 7))
    (list_ascii_of_string "abcdefghijklmnopqrstuvwxyz" ++
     map ascii_of_nat (seq 224 23 ++ seq 248 7)).

(** Two code units are the same letter when they are equal or are the
    two forms of one letter. *)
Inductive sameLetter : ascii -> ascii -> Prop :=
| same_unit c : sameLetter c c
| capital_small capital small :
    In (capital, small) letterCases -> sameLetter capital small
| small_capital capital small :
    In (capital, small) letterCases -> sameLetter small capital.

Inductive equalIgnoringCase : string -> string -> Prop :=
| eic_empty : equalIgnoringCase "" ""
| eic_unit a b s t :
    sameLetter a b -> equalIgnoringCase s t ->
    equalIgnoringCase (String a s) (String b t).

(** [term] occurs in [text] up to case: some run of consecutive code
    units of [text] equals [term] letter by letter. *)
Definition occursIgnoringCase (term text : string) : Prop :=
  exists before found rest,
    text = before +:+ found +:+ rest /\ equalIgnoringCase found term.

(** ** The cart *)

(** The sum of a list of integers. *)
Definition Zsum (l : list Z) : Z := foldr Z.add 0 l.

(** The cart count is the sum of the quantities of the cart items. *)
Definition countIsSum (s : App) : Prop :=
  cartCount s = Zsum (map CartItem.quantity (cartItems s)).

(** The console line of a resynchronisation that fails. *)
Definition resyncLog (cart : Response (list CartItem.t)) : list Event :=
  match cart with
  | Resolved _ => []
  | Rejected _ => [ConsoleError "Failed to fetch cart:"]
  end.

(** A run resynchronises when it sends a cart fetch. *)
Definition resyncs (log : list Event) : Prop :=
  exists bearer, In (Issued (GetCart bearer)) log.

(** ** The session *)

(** The state with the cart emptied, as [CartProvider]'s effect leaves it
    when there is no token. *)
Definition emptied (s : App) : App :=
  mkApp (user s) (token s) (localStorage s) [] 0 (products s).

(** The state of the cart when nobody is logged in. *)
Definition loggedOutCartEmpty (s : App) : Prop :=
  Js.truthy_opt (token s) = false -> cartItems s = [] /\ cartCount s = 0.

(** The session and the cart after a logout. *)
Definition loggedOut (s : App) : Prop :=
  localStorage s = None /\ token s = None /\ user s = None /\
  cartItems s = [] /\ cartCount s = 0.

(** A run is silent when it shows no toast. *)
Definition silent (log : list Event) : Prop := notifications log = [].

(** ** The cart modal *)

(** The sum of a list of rationals, from the left as [reduce] adds. *)
Definition Qsum (l : list Q) : Q := fold_left Qplus l 0%Q.

(** The price of a cart line, when its product has resolved. *)
Definition lineOf (products : gmap string Product.t) (item : CartItem.t) : option Q :=
  (fun product => Product.price product * inject_Z (CartItem.quantity item))%Q
    <$> products !! CartItem.product_id item.

(** The row of a cart line, when its product has resolved. *)
Definition rowOf (products : gmap string Product.t) (item : CartItem.t) : option CartModal.Element :=
  (fun product =>
     CartModal.Row (CartItem.id item) (Some (Product.image_url product))
       (Some (Product.name product)) (CartItem.size item) (Some (Product.price product))
       (CartItem.quantity item))
    <$> products !! CartItem.product_id item.

(** What a cart line adds to the total. *)
Definition lineNumber (products : gmap string Product.t) (item : CartItem.t) : JsNumber.t :=
  match JsObject.get products (CartItem.product_id item) with
  | JsObject.Own product =>
      JsNumber.Num (Product.price product * inject_Z (CartItem.quantity item))
  | JsObject.Member _ => JsNumber.NaN
  | JsObject.Undefined => JsNumber.Num 0
  end.

(** No product id of the cart is the name of a member of
    [Object.prototype]. *)
Definition plainIds (cartItems : list CartItem.t) : Prop :=
  Forall (fun item => JsObject.inherited (CartItem.product_id item) = false) cartItems.

(** The product of the item is not read from [Object.prototype]: it is
    a property of [products] itself, or the id is no name of a member. *)
Definition ownOrAbsent (products : gmap string Product.t) (item : CartItem.t) : Prop :=
  products !! CartItem.product_id item = None ->
  JsObject.inherited (CartItem.product_id item) = false.

(** The product of the item is read from [Object.prototype]: its id is
    the name of a member, and [products] has no property of its own of
    that name. *)
Definition readsPrototype (products : gmap string Product.t) (item : CartItem.t) : Prop :=
  JsObject.inherited (CartItem.product_id item) = true /\
  products !! CartItem.product_id item = None.

(** The items of the cart whose product is not in [products]. *)
Definition lacksProduct (s : App) (item : CartItem.t) : bool :=
  negb (bool_decide (is_Some (products s !! CartItem.product_id item))).

(** What C10 states: the effect fetches the products of the items that
    lack one, and no other. *)
Definition fetchesOnlyUncached (responses : nat -> Response Product.t) (s : App) : Prop :=
  requests (events (CartModal.cartItemsEffect responses s))
  = map (fun item => GetProduct (CartItem.product_id item))
      (List.filter (lacksProduct s) (cartItems s)).

(** The state with [products] replaced. *)
Definition withProducts (cached : gmap string Product.t) (s : App) : App :=
  after (setProducts cached s).

(** ** Sample data *)

Definition airMax : Product.t :=
  Product.mk "p1" "Air Max" "Nike" "sneakers" 120 "Running shoe" "air-max.png" [41; 42; 43]%Q.

Definition classicBoot : Product.t :=
  Product.mk "p2" "Classic Boot" "Timberland" "boots" 180 "Leather boot" "boot.png" [42; 44]%Q.

Definition ada : UserProfile.t := UserProfile.mk "u1" "ada@example.org" "Ada".

Definition line1 : CartItem.t := CartItem.mk "i1" "p1" 42 2.
Definition line2 : CartItem.t := CartItem.mk "i2" "p2" 44 3.
Definition line3 : CartItem.t := CartItem.mk "i3" "p1" 43 1.

(** A line whose product id is the name of a member of
    [Object.prototype]. *)
Definition constructorLine : CartItem.t := CartItem.mk "i4" "constructor" 42 1.

(** A logged-in session with one line in the cart. *)
Definition shopping : App := mkApp (Some ada) (Some "tok") (Some "tok") [line1] 2 ∅.

(** Two lines of one product, which is already in [products]. *)
Definition cachedCart : App :=
  mkApp (Some ada) (Some "tok") (Some "tok") [line1; line3] 3 {[ "p1" := airMax ]}.

(** A server that rejects the requests of the token effects. *)
Definition offline : Server := mkServer (Rejected None) (Rejected None) false.

(** ** Further vocabulary *)

(** localStorage holds the token of the state. *)
Definition tokenStored (s : App) : Prop := localStorage s = token s.

(** A state reached by a login after the first render of an empty
    localStorage. *)
Definition loggedIn : App :=
  after (gesture (handle (Login "ada@example.org" "secret" (Resolved "tok")) (Resolved []))
           (mkServer (Resolved ada) (Resolved [line1; line2]) false)
           (after (mount offline (initial None)))).

(** The state after a first render with a stale token, when the refusal
    of the user comes before the cart. *)
Definition raced : App :=
  after (mount (mkServer (Rejected None) (Resolved [line1]) true) (initial (Some "stale"))).

(** * Properties *)

(** ** The catalogue filter *)

Section ListFacts.
Context {A : Type}.
Implicit Types (f g : A -> bool) (l : list A).

Lemma filter_twice f g l :
  List.filter g (List.filter f l) = List.filter (fun x => f x && g x) l.
Proof.
  induction l as [|x l IH]; simpl; [reflexivity|].
  destruct (f x) eqn:Hf; simpl; [|exact IH].
  destruct (g x); simpl; congruence.
Qed.

Lemma filter_all f l : (forall x, f x = true) -> List.filter f l = l.
Proof.
  intros Hf. induction l as [|x l IH]; simpl; [reflexivity|].
  rewrite Hf, IH. reflexivity.
Qed.

Lemma filter_subsequence f l : sublist (List.filter f l) l.
Proof.
  induction l as [|x l IH]; simpl; [constructor|].
  destruct (f x); [apply sublist_skip | apply sublist_cons]; exact IH.
Qed.

Lemma filter_same_test f g l :
  (forall x, f x = g x) -> List.filter f l = List.filter g l.
Proof.
  intros Hfg. induction l as [|x l IH]; simpl; [reflexivity|].
  rewrite Hfg, IH. reflexivity.
Qed.

End ListFacts.

(** The three conditional passes of [filterProducts] amount to one pass
    with the conjunction of the criteria. *)
Lemma filterProducts_one_pass products selectedCategory selectedBrand searchTerm :
  Home.filterProducts products selectedCategory selectedBrand searchTerm =
  List.filter (keeps selectedCategory selectedBrand searchTerm) products.
Proof.
  unfold Home.filterProducts, keeps, Js.truthy.
  destruct (String.eqb selectedCategory "all");
    destruct (String.eqb selectedBrand "all");
    destruct (String.eqb searchTerm ""); simpl;
    rewrite ?filter_twice;
    first [ symmetry; apply filter_all; reflexivity
          | apply filter_same_test; intros p;
            rewrite ?andb_true_r, ?andb_assoc; reflexivity ].
Qed.

(** C2. [filterProducts] with the neutral criteria returns the list it
    was given; filtering a result again with the same criteria changes
    nothing; and every result is a subsequence of the product list, its
    elements in their original relative order. *)
Theorem filterProducts_identity_idempotent_stable
    (products : list Product.t) (selectedCategory selectedBrand searchTerm : string) :
  Home.filterProducts products "all" "all" "" = products /\
  Home.filterProducts
    (Home.filterProducts products selectedCategory selectedBrand searchTerm)
    selectedCategory selectedBrand searchTerm
  = Home.filterProducts products selectedCategory selectedBrand searchTerm /\
  sublist (Home.filterProducts products selectedCategory selectedBrand searchTerm) products.
Proof.
  split; [reflexivity|].
  rewrite !filterProducts_one_pass. split.
  - rewrite filter_twice. apply filter_same_test.
    intros p. apply andb_diag.
  - apply filter_subsequence.
Qed.

Section StringFacts.
Implicit Types (s t : string) (a b c : ascii).

Lemma append_empty t : "" +:+ t = t.
Proof. reflexivity. Qed.

Lemma append_unit c s t : String c s +:+ t = String c (s +:+ t).
Proof. reflexivity. Qed.

Lemma prefix_append t s :
  String.prefix t s = true <-> exists rest, s = t +:+ rest.
Proof.
  revert s. induction t as [|a t IH]; intros s; simpl.
  - destruct s; split; eauto.
  - setoid_rewrite append_unit. destruct s as [|b s]; simpl.
    + split; [discriminate | intros [rest H]; discriminate].
    + destruct (ascii_dec a b) as [->|Hab].
      * rewrite IH. split; intros [rest H]; exists rest; congruence.
      * split; [discriminate | intros [rest H]; congruence].
Qed.

Lemma includes_unit c s t :
  Js.includes (String c s) t = String.prefix t (String c s) || Js.includes s t.
Proof. reflexivity. Qed.

Lemma includes_occurs s t :
  Js.includes s t = true <-> exists before rest, s = before +:+ t +:+ rest.
Proof.
  induction s as [|c s IH]; [change (Js.includes "" t) with (String.prefix t "" || false) | rewrite includes_unit].
  - rewrite orb_false_r, prefix_append. split.
    + intros [rest H]. exists "", rest. exact H.
    + intros ([|c before] & rest & H); [eauto | discriminate].
  - rewrite orb_true_iff, IH, prefix_append. split.
    + intros [[rest H] | (before & rest & H)].
      * exists "", rest. exact H.
      * exists (String c before), rest. rewrite append_unit. congruence.
    + intros ([|c' before] & rest & H).
      * left. eauto.
      * right. exists before, rest. rewrite append_unit in H. congruence.
Qed.

Lemma toLowerCase_append s t :
  Js.toLowerCase (s +:+ t) = Js.toLowerCase s +:+ Js.toLowerCase t.
Proof.
  induction s as [|c s IH]; [reflexivity|].
  rewrite append_unit. simpl. rewrite IH. reflexivity.
Qed.

Lemma toLowerCase_split s t1 t2 :
  Js.toLowerCase s = t1 +:+ t2 ->
  exists s1 s2, s = s1 +:+ s2 /\ Js.toLowerCase s1 = t1 /\ Js.toLowerCase s2 = t2.
Proof.
  revert s. induction t1 as [|a t1 IH]; intros s H.
  - exists "", s. auto.
  - rewrite append_unit in H. destruct s as [|c s]; simpl in H; [discriminate|].
    injection H as Hc Hs. destruct (IH _ Hs) as (s1 & s2 & -> & <- & <-).
    exists (String c s1), s2. simpl. rewrite Hc. auto.
Qed.

Lemma isUpperCase_small c :
  Js.isUpperCase c = true ->
  Js.isUpperCase (ascii_of_N (N_of_ascii c + 32)) = false.
Proof.
  destruct c as [[|] [|] [|] [|] [|] [|] [|] [|]]; intros H;
    solve [reflexivity | discriminate H].
Qed.

(** The table of the letters and the test of the code agree: the
    capitals of the table are the code units [toLowerCase] moves, and
    the small form is where it moves them. *)
Lemma letterCases_lowerCodeUnit capital small :
  In (capital, small) letterCases <->
  Js.isUpperCase capital = true /\ small = ascii_of_N (N_of_ascii capital + 32).
Proof.
  split.
  - assert (Htable : forallb (fun p : ascii * ascii =>
                                Js.isUpperCase p.1 &&
                                Ascii.eqb p.2 (ascii_of_N (N_of_ascii p.1 + 32)))
                       letterCases = true) by (vm_compute; reflexivity).
    intros Hin. apply (proj1 (forallb_forall _ _) Htable) in Hin.
    apply andb_true_iff in Hin as [Hupper Hsmall].
    split; [exact Hupper | apply Ascii.eqb_eq, Hsmall].
  - intros [Hupper ->].
    assert (Hfound : existsb (fun p : ascii * ascii =>
                                Ascii.eqb p.1 capital &&
                                Ascii.eqb p.2 (ascii_of_N (N_of_ascii capital + 32)))
                       letterCases = true).
    { destruct capital as [[|] [|] [|] [|] [|] [|] [|] [|]];
        solve [discriminate Hupper | vm_compute; reflexivity]. }
    apply existsb_exists in Hfound as ([C c] & Hin & Heq).
    apply andb_true_iff in Heq as [HC Hc].
    apply Ascii.eqb_eq in HC, Hc. simpl in HC, Hc. subst C c. exact Hin.
Qed.

Lemma lowerCodeUnit_sameLetter a b :
  Js.lowerCodeUnit a = Js.lowerCodeUnit b <-> sameLetter a b.
Proof.
  unfold Js.lowerCodeUnit. split.
  - destruct (Js.isUpperCase a) eqn:Ha, (Js.isUpperCase b) eqn:Hb; intros H.
    + apply (f_equal N_of_ascii) in H.
      rewrite !N_ascii_embedding in H.
      * assert (N_of_ascii a = N_of_ascii b) as E by lia.
        apply (f_equal ascii_of_N) in E. rewrite !ascii_N_embedding in E.
        subst b. constructor.
      * pose proof (N_ascii_bounded b).
        destruct b as [[|] [|] [|] [|] [|] [|] [|] [|]];
          solve [reflexivity | discriminate Hb].
      * destruct a as [[|] [|] [|] [|] [|] [|] [|] [|]];
          solve [reflexivity | discriminate Ha].
    + subst b. apply capital_small, letterCases_lowerCodeUnit. auto.
    + subst a. apply small_capital, letterCases_lowerCodeUnit. auto.
    + subst b. constructor.
  - intros [c | C c Hin | C c Hin].
    + reflexivity.
    + apply letterCases_lowerCodeUnit in Hin as [HC ->].
      rewrite HC, (isUpperCase_small _ HC). reflexivity.
    + apply letterCases_lowerCodeUnit in Hin as [HC ->].
      rewrite HC, (isUpperCase_small _ HC). reflexivity.
Qed.

Lemma toLowerCase_equalIgnoringCase s t :
  Js.toLowerCase s = Js.toLowerCase t <-> equalIgnoringCase s t.
Proof.
  split.
  - revert t. induction s as [|a s IH]; intros [|b t] H; simpl in H;
      try discriminate; [constructor|].
    injection H as Hab Hst. constructor.
    + apply lowerCodeUnit_sameLetter, Hab.
    + apply IH, Hst.
  - induction 1 as [|a b s t Hab _ IH]; simpl; [reflexivity|].
    apply lowerCodeUnit_sameLetter in Hab. congruence.
Qed.

(** The test of the source, lower-casing both sides and looking for an
    occurrence, decides case-insensitive occurrence. *)
Lemma includes_ignoring_case text term :
  Js.includes (Js.toLowerCase text) (Js.toLowerCase term) = true <->
  occursIgnoringCase term text.
Proof.
  rewrite includes_occurs. unfold occursIgnoringCase. split.
  - intros (before & rest & H).
    apply toLowerCase_split in H as (s1 & s23 & -> & <- & H).
    apply toLowerCase_split in H as (s2 & s3 & -> & H & <-).
    exists s1, s2, s3. split; [reflexivity|].
    apply toLowerCase_equalIgnoringCase, H.
  - intros (before & found & rest & -> & H).
    apply toLowerCase_equalIgnoringCase in H.
    exists (Js.toLowerCase before), (Js.toLowerCase rest).
    rewrite !toLowerCase_append, H. reflexivity.
Qed.

End StringFacts.

(** C3. A product is in the filtered result exactly when it is in the
    product list and meets the three criteria together: the category is
    "all" or is the product's category, the brand is "all" or is the
    product's brand (both compared exactly), and the search term is empty
    or occurs, up to case, in the product's name or in its description.
    Occurrence up to case is [occursIgnoringCase], which is defined from
    the table of the letters and not from [toLowerCase]; the strings are
    those of code units below 256. *)
Theorem filterProducts_membership
    (products : list Product.t) (selectedCategory selectedBrand searchTerm : string)
    (product : Product.t) :
  In product (Home.filterProducts products selectedCategory selectedBrand searchTerm) <->
  In product products /\
  (selectedCategory = "all" \/ Product.category product = selectedCategory) /\
  (selectedBrand = "all" \/ Product.brand product = selectedBrand) /\
  (searchTerm = "" \/
   occursIgnoringCase searchTerm (Product.name product) \/
   occursIgnoringCase searchTerm (Product.description product)).
Proof.
  rewrite filterProducts_one_pass, filter_In. unfold keeps.
  rewrite !andb_true_iff, !orb_true_iff, !String.eqb_eq, !includes_ignoring_case.
  tauto.
Qed.

(** The category and the brand are compared exactly, the search term up
    to case, in the name or in the description. *)
Example filterProducts_samples :
  Home.filterProducts [airMax; classicBoot] "sneakers" "all" "" = [airMax] /\
  Home.filterProducts [airMax; classicBoot] "all" "nike" "" = [] /\
  Home.filterProducts [airMax; classicBoot] "all" "all" "bOOt" = [classicBoot] /\
  Home.filterProducts [airMax; classicBoot] "all" "all" "RUNNING" = [airMax] /\
  Home.filterProducts [airMax; classicBoot] "all" "Nike" "boot" = [].
Proof. repeat split. Qed.

(** The relation of C3 on its own: "bOOt" occurs up to case in "Classic
    Boot", as the table of the letters has it, and "boat" does not. *)
Example occursIgnoringCase_samples :
  occursIgnoringCase "bOOt" "Classic Boot" /\
  ~ occursIgnoringCase "boat" "Classic Boot" /\
  sameLetter "B" "b" /\ ~ sameLetter "@" "`".
Proof.
  split; [|split; [|split]].
  - exists "Classic ", "Boot", "". split; [reflexivity|].
    repeat first [ apply eic_empty
                 | apply eic_unit;
                   [first [ apply same_unit
                          | apply capital_small; vm_compute; tauto
                          | apply small_capital; vm_compute; tauto ]|] ].
  - intros H. apply includes_ignoring_case in H. discriminate H.
  - apply capital_small. vm_compute. tauto.
  - intros H. apply lowerCodeUnit_sameLetter in H. discriminate H.
Qed.

(** ** The cart synchronisation engine *)

Lemma fold_left_quantities (items : list CartItem.t) (sum : Z) :
  fold_left (fun sum item => sum + CartItem.quantity item) items sum
  = sum + Zsum (map CartItem.quantity items).
Proof.
  revert sum. induction items as [|item items IH]; intros sum; simpl.
  - lia.
  - rewrite IH. lia.
Qed.

(** What a run of [fetchCart] amounts to, by the server's answer. *)
Lemma fetchCart_resolved (s : App) (data : list CartItem.t) :
  CartProvider.fetchCart (Resolved data) s =
  (tt,
   mkApp (user s) (token s) (localStorage s) data
     (fold_left (fun sum item => sum + CartItem.quantity item) data 0) (products s),
   [Issued (GetCart (token s)); Settled (GetCart (token s)) true]).
Proof. reflexivity. Qed.

Lemma fetchCart_rejected (s : App) (detail : option string) :
  CartProvider.fetchCart (Rejected detail) s =
  (tt, s, [Issued (GetCart (token s)); Settled (GetCart (token s)) false;
           ConsoleError "Failed to fetch cart:"]).
Proof. reflexivity. Qed.

(** C1. After a successful [fetchCart] the cart items are the list the
    server returned, whatever it is, and the cart count is the sum of
    their quantities. *)
Theorem fetchCart_count_is_sum_of_quantities (s : App) (data : list CartItem.t) :
  let s' := after (CartProvider.fetchCart (Resolved data) s) in
  cartItems s' = data /\
  cartCount s' = Zsum (map CartItem.quantity (cartItems s')).
Proof.
  rewrite fetchCart_resolved. unfold after; simpl fst; simpl snd.
  split; [reflexivity|]. simpl cartCount. simpl cartItems.
  rewrite fold_left_quantities. lia.
Qed.

(** The count is not the number of items: two lines of 2 and 3 pairs
    count 5. *)
Example fetchCart_count_not_length :
  let s' := after (CartProvider.fetchCart (Resolved [line1; line2]) (initial (Some "tok"))) in
  cartCount s' = 5 /\ length (cartItems s') = 2%nat.
Proof. split; reflexivity. Qed.

(** C8. A failed [fetchCart] logs the error to the console and nothing
    else: the state, and with it the cart items and the cart count, is
    what it was, and no toast is shown.  The same holds when the failing
    fetch is the pending resynchronisation of a mutation. *)
Theorem fetchCart_failure_swallowed (s : App) (detail : option string) (pending : Request) :
  let out := CartProvider.fetchCart (Rejected detail) s in
  let resumed := CartProvider.fetchCart_resume pending (Rejected detail) s in
  after out = s /\
  cartItems (after out) = cartItems s /\
  cartCount (after out) = cartCount s /\
  events out = [Issued (GetCart (token s)); Settled (GetCart (token s)) false;
                ConsoleError "Failed to fetch cart:"] /\
  notifications (events out) = [] /\
  after resumed = s /\
  events resumed = [Settled pending false; ConsoleError "Failed to fetch cart:"] /\
  notifications (events resumed) = [].
Proof. rewrite fetchCart_rejected. repeat split. Qed.

Lemma addToCart_resolved (s : App) productId size quantity (cart : Response (list CartItem.t)) :
  let add := PostCartAdd (token s) productId size (default 1 quantity) in
  CartProvider.addToCart productId size quantity (Resolved tt) cart s =
  (tt, after (CartProvider.fetchCart cart s),
   Issued add :: Settled add true :: Issued (GetCart (token s)) ::
   ToastSuccess "Produit ajouté au panier!" ::
   Settled (GetCart (token s)) (resolved cart) :: resyncLog cart).
Proof. destruct cart; reflexivity. Qed.

Lemma addToCart_rejected (s : App) productId size quantity detail (cart : Response (list CartItem.t)) :
  let add := PostCartAdd (token s) productId size (default 1 quantity) in
  CartProvider.addToCart productId size quantity (Rejected detail) cart s =
  (tt, s, [Issued add; Settled add false; ToastError "Erreur lors de l'ajout au panier"]).
Proof. reflexivity. Qed.

Lemma removeFromCart_resolved (s : App) itemId (cart : Response (list CartItem.t)) :
  let del := DeleteCart (token s) itemId in
  CartProvider.removeFromCart itemId (Resolved tt) cart s =
  (tt, after (CartProvider.fetchCart cart s),
   Issued del :: Settled del true :: Issued (GetCart (token s)) ::
   ToastSuccess "Produit retiré du panier" ::
   Settled (GetCart (token s)) (resolved cart) :: resyncLog cart).
Proof. destruct cart; reflexivity. Qed.

Lemma removeFromCart_rejected (s : App) itemId detail (cart : Response (list CartItem.t)) :
  let del := DeleteCart (token s) itemId in
  CartProvider.removeFromCart itemId (Rejected detail) cart s =
  (tt, s, [Issued del; Settled del false; ToastError "Erreur lors de la suppression"]).
Proof. reflexivity. Qed.

Lemma requests_resyncLog (cart : Response (list CartItem.t)) : requests (resyncLog cart) = [].
Proof. destruct cart; reflexivity. Qed.

(** C9, as stated, fails: an [addToCart] whose request is rejected sends
    no cart fetch. *)
Lemma addToCart_rejected_does_not_resync :
  ~ resyncs (events (CartProvider.addToCart "p1" 42 None (Rejected None) (Resolved [line1])
                       shopping)).
Proof.
  intros [bearer H]. rewrite addToCart_rejected in H. simpl in H.
  destruct H as [H|[H|[H|[]]]]; discriminate H.
Qed.

(** C9, amended. [addToCart] sends the line; when that round trip
    succeeds, the cart fetch goes out after it has settled, and the state
    that results is the one [fetchCart] gives, so that a failed
    resynchronisation leaves the cart untouched (nothing is inserted
    locally); when the round trip fails, no cart fetch is sent and the
    state is unchanged.  [removeFromCart] behaves the same way. *)
Theorem cart_mutation_resyncs_after_success
    (s : App) (productId : string) (size : Q) (quantity : option Z) (itemId : string)
    (cart : Response (list CartItem.t)) (detail : option string) :
  let add := PostCartAdd (token s) productId size (default 1 quantity) in
  let del := DeleteCart (token s) itemId in
  let added := CartProvider.addToCart productId size quantity (Resolved tt) cart s in
  let notAdded := CartProvider.addToCart productId size quantity (Rejected detail) cart s in
  let removed := CartProvider.removeFromCart itemId (Resolved tt) cart s in
  let notRemoved := CartProvider.removeFromCart itemId (Rejected detail) cart s in
  (events added =
     Issued add :: Settled add true :: Issued (GetCart (token s)) ::
     ToastSuccess "Produit ajouté au panier!" ::
     Settled (GetCart (token s)) (resolved cart) :: resyncLog cart /\
   requests (events added) = [add; GetCart (token s)] /\
   after added = after (CartProvider.fetchCart cart s) /\
   (resolved cart = false -> after added = s)) /\
  (requests (events notAdded) = [add] /\ after notAdded = s) /\
  (events removed =
     Issued del :: Settled del true :: Issued (GetCart (token s)) ::
     ToastSuccess "Produit retiré du panier" ::
     Settled (GetCart (token s)) (resolved cart) :: resyncLog cart /\
   requests (events removed) = [del; GetCart (token s)] /\
   after removed = after (CartProvider.fetchCart cart s) /\
   (resolved cart = false -> after removed = s)) /\
  (requests (events notRemoved) = [del] /\ after notRemoved = s).
Proof.
  intros add del added notAdded removed notRemoved.
  subst added notAdded removed notRemoved.
  rewrite addToCart_resolved, addToCart_rejected,
    removeFromCart_resolved, removeFromCart_rejected.
  assert (Hfailed : resolved cart = false -> after (CartProvider.fetchCart cart s) = s).
  { destruct cart; [discriminate | reflexivity]. }
  assert (Hrequests : forall (r : Request) (message : string),
    requests (Issued r :: Settled r true :: Issued (GetCart (token s)) ::
              ToastSuccess message ::
              Settled (GetCart (token s)) (resolved cart) :: resyncLog cart)
    = [r; GetCart (token s)]).
  { intros r message. simpl. rewrite requests_resyncLog. reflexivity. }
  repeat split; solve [apply Hrequests | exact Hfailed].
Qed.

(** ** Renders and the token effects *)

Lemma bind_run {A B} (m : Act A) (f : A -> Act B) (s : App) :
  (m ≫= f) s =
  (value (f (value (m s)) (after (m s))),
   after (f (value (m s)) (after (m s))),
   events (m s) ++ events (f (value (m s)) (after (m s)))).
Proof.
  unfold mbind, Act_bind. destruct (m s) as [[a s1] log1].
  unfold value, after, events. simpl.
  destruct (f a s1) as [[b s2] log2]. reflexivity.
Qed.

Lemma mret_run {A} (a : A) (s : App) : (mret a : Act A) s = (a, s, []).
Proof. reflexivity. Qed.

Lemma after_run {A} (a : A) (s : App) (log : list Event) : after (a, s, log) = s.
Proof. reflexivity. Qed.

Lemma events_run {A} (a : A) (s : App) (log : list Event) : events (a, s, log) = log.
Proof. reflexivity. Qed.

Lemma value_run {A} (a : A) (s : App) (log : list Event) : value (a, s, log) = a.
Proof. reflexivity. Qed.

(** With a token the two effects send their requests, the cart's first,
    and change nothing. *)
Lemma effects_with_token (s : App) :
  Js.truthy_opt (token s) = true ->
  effects s =
  ((Some (GetCart (token s)), Some (GetAuthMe (token s))), s,
   [Issued (GetCart (token s)); Issued (GetAuthMe (token s))]).
Proof.
  destruct s as [u tok stored items count prods]. simpl. intros Htok.
  cbv -[Js.truthy_opt]. rewrite !Htok. reflexivity.
Qed.

(** Without a token they make no request, and the cart is emptied. *)
Lemma effects_without_token (s : App) :
  Js.truthy_opt (token s) = false ->
  effects s = ((None, None), emptied s, []).
Proof.
  destruct s as [u tok stored items count prods]. simpl. intros Htok.
  cbv -[Js.truthy_opt]. rewrite !Htok. reflexivity.
Qed.

Lemma renderAfterUser_same (s : App) :
  renderAfterUser (token s) s = (tt, s, []).
Proof.
  unfold renderAfterUser. rewrite bind_run.
  change (read token s) with (token s, s, @nil Event).
  rewrite value_run, after_run, events_run.
  rewrite bool_decide_eq_true_2 by reflexivity. reflexivity.
Qed.

Lemma renderAfterUser_logout (before : option string) (s : App) :
  token s = None -> before <> None ->
  renderAfterUser before s = (tt, emptied s, []).
Proof.
  intros Htok Hbefore. unfold renderAfterUser. rewrite bind_run.
  change (read token s) with (token s, s, @nil Event).
  rewrite value_run, after_run, events_run.
  rewrite bool_decide_eq_false_2 by congruence.
  rewrite bind_run, effects_without_token by (rewrite Htok; reflexivity).
  reflexivity.
Qed.

(** [fetchUser] is its two halves, one after the other. *)
Lemma fetchUser_issue_resume (response : Response UserProfile.t) (s : App) :
  AuthProvider.fetchUser response s
  = (r ← AuthProvider.fetchUser_issue; AuthProvider.fetchUser_resume r response) s.
Proof. destruct response; reflexivity. Qed.

Lemma fetchUser_resume_token (r : Request) (response : Response UserProfile.t) (s : App) :
  token (after (AuthProvider.fetchUser_resume r response s))
  = if resolved response then token s else None.
Proof. destruct response; reflexivity. Qed.

Lemma fetchCart_resume_session (r : Request) (response : Response (list CartItem.t)) (s : App) :
  token (after (CartProvider.fetchCart_resume r response s)) = token s /\
  user (after (CartProvider.fetchCart_resume r response s)) = user s /\
  localStorage (after (CartProvider.fetchCart_resume r response s)) = localStorage s.
Proof. destruct response; repeat split. Qed.

(** The render after [fetchUser]: nothing when the user came, the cart
    emptied when the logout removed the token. *)
Lemma renderAfterUser_settled (r : Request) (response : Response UserProfile.t)
    (before : App) (s : App) :
  Js.truthy_opt (token before) = true ->
  token s = token before ->
  let s1 := after (AuthProvider.fetchUser_resume r response s) in
  renderAfterUser (token before) s1
  = (tt, if resolved response then s1 else emptied s1, []).
Proof.
  intros Htok Hsame s1. subst s1.
  pose proof (fetchUser_resume_token r response s) as Hafter.
  destruct (resolved response).
  - rewrite <- Hsame, <- Hafter. apply renderAfterUser_same.
  - apply renderAfterUser_logout; [exact Hafter|].
    intros Hnone. rewrite Hnone in Htok. discriminate Htok.
Qed.

(** The effects of a render and their round trips.  With a token, the
    two requests go out, the cart's first; then either the user's answer
    is handled, the cart is emptied if that was a refusal, and the
    cart's answer is handled after it; or the cart's answer is handled,
    then the user's, and the cart is emptied if that was a refusal. *)
(** The effects of a render and their round trips.  With a token, the
    two requests go out, the cart's first; then either the user's answer
    is handled, the cart is emptied if that was a refusal, and the
    cart's answer is handled after it; or the cart's answer is handled,
    then the user's, and the cart is emptied if that was a refusal. *)
Lemma tokenEffects_run (server : Server) (s : App) :
  tokenEffects server s =
  if Js.truthy_opt (token s)
  then
    let cartRequest := GetCart (token s) in
    let userRequest := GetAuthMe (token s) in
    if meFirst server
    then
      let entered := AuthProvider.fetchUser_resume userRequest (me server) s in
      let rendered := if resolved (me server) then after entered else emptied (after entered) in
      let fetched := CartProvider.fetchCart_resume cartRequest (cart server) rendered in
      (tt, after fetched,
       [Issued cartRequest; Issued userRequest] ++ events entered ++ events fetched)
    else
      let fetched := CartProvider.fetchCart_resume cartRequest (cart server) s in
      let entered := AuthProvider.fetchUser_resume userRequest (me server) (after fetched) in
      (tt, if resolved (me server) then after entered else emptied (after entered),
       [Issued cartRequest; Issued userRequest] ++ events fetched ++ events entered)
  else (tt, emptied s, []).
Proof.
  unfold tokenEffects. rewrite bind_run.
  change (read token s) with (token s, s, @nil Event).
  rewrite value_run, after_run, events_run, bind_run.
  destruct (Js.truthy_opt (token s)) eqn:Htok.
  - rewrite effects_with_token by exact Htok.
    rewrite !value_run, !after_run, !events_run.
    cbv zeta. simpl fst; simpl snd. unfold settleCart, settleUser.
    destruct (meFirst server).
    + rewrite bind_run, bind_run. cbn [fst snd].
      rewrite (renderAfterUser_settled _ (me server) s s Htok eq_refl).
      rewrite !value_run, !after_run, !events_run, app_nil_l, app_nil_l.
      match goal with |- (?v, _, _) = _ => destruct v end. reflexivity.
    + rewrite bind_run, bind_run. cbn [fst snd].
      rewrite (renderAfterUser_settled _ (me server) s _ Htok
                 (proj1 (fetchCart_resume_session _ (cart server) s))).
      rewrite !value_run, !after_run, !events_run, app_nil_r, app_nil_l.
      reflexivity.
  - rewrite effects_without_token by exact Htok.
    rewrite !value_run, !after_run, !events_run.
    simpl fst; simpl snd. unfold settleCart, settleUser.
    destruct (meFirst server).
    + rewrite bind_run, bind_run. cbn [fst snd].
      repeat rewrite ?mret_run, ?after_run, ?events_run, ?value_run.
      change (renderAfterUser (token s) (emptied s))
        with (renderAfterUser (token (emptied s)) (emptied s)).
      rewrite renderAfterUser_same. reflexivity.
    + rewrite bind_run, bind_run. cbn [fst snd].
      repeat rewrite ?mret_run, ?after_run, ?events_run, ?value_run.
      change (renderAfterUser (token s) (emptied s))
        with (renderAfterUser (token (emptied s)) (emptied s)).
      rewrite renderAfterUser_same. reflexivity.
Qed.

Lemma commit_run (prev : option string) (server : Server) (s : App) :
  commit prev server s =
  if bool_decide (token s = prev) then (tt, s, []) else tokenEffects server s.
Proof.
  unfold commit. rewrite bind_run.
  change (read token s) with (token s, s, @nil Event).
  rewrite value_run, after_run, events_run.
  destruct (bool_decide (token s = prev)); [reflexivity|].
  destruct (tokenEffects server s) as [[[] s1] log1]. reflexivity.
Qed.

Lemma gesture_run {A} (handler : Act A) (server : Server) (s : App) :
  gesture handler server s =
  (value (handler s),
   after (commit (token s) server (after (handler s))),
   events (handler s) ++ events (commit (token s) server (after (handler s)))).
Proof.
  unfold gesture, read, mbind, Act_bind, mret, Act_ret, value, after, events.
  destruct (handler s) as [[a s1] log1]. simpl.
  destruct (commit (token s) server s1) as [[[] s2] log2]. simpl.
  rewrite app_nil_r. reflexivity.
Qed.

Lemma gesture_after {A} (handler : Act A) (server : Server) (s : App) :
  after (gesture handler server s)
  = after (commit (token s) server (after (handler s))).
Proof. rewrite gesture_run. reflexivity. Qed.

(** A render in which the token is the one of the render before runs no
    effect. *)
Lemma commit_same_token (s : App) (server : Server) :
  commit (token s) server s = (tt, s, []).
Proof.
  rewrite commit_run, bool_decide_eq_true_2 by reflexivity. reflexivity.
Qed.

Lemma gesture_same_token {A} (handler : Act A) (server : Server) (s : App) :
  token (after (handler s)) = token s ->
  gesture handler server s = handler s.
Proof.
  intros Htoken. rewrite gesture_run, <- Htoken, commit_same_token.
  rewrite after_run, events_run, app_nil_r.
  destruct (handler s) as [[a s'] log]. reflexivity.
Qed.

(** ** The loop of the cart modal *)

(** One turn of the loop of [fetchProductDetails]. *)
Lemma fetchEach_unit (item : CartItem.t) (rest : list CartItem.t) (i : nat)
    (responses : nat -> Response Product.t) (productMap : gmap string Product.t) (s : App) :
  let r := GetProduct (CartItem.product_id item) in
  let productMap' :=
    match responses i with
    | Resolved data => <[CartItem.product_id item := data]> productMap
    | Rejected _ => productMap
    end in
  let failure :=
    match responses i with
    | Resolved _ => []
    | Rejected _ => [ConsoleError "Failed to fetch product:"]
    end in
  let out := CartModal.fetchEach rest (S i) responses productMap' s in
  CartModal.fetchEach (item :: rest) i responses productMap s =
  (value out, after out,
   Issued r :: Settled r (resolved (responses i)) :: failure ++ events out).
Proof.
  simpl. unfold mbind, Act_bind, await, emit, console_error, mret, Act_ret.
  simpl. destruct (responses i) as [data|detail]; simpl;
    destruct (CartModal.fetchEach rest (S i) responses _ s) as [[m s'] log];
    reflexivity.
Qed.

(** The loop leaves the state alone and sends one product request per
    item of the list, in order, whatever [productMap] holds. *)
Lemma fetchEach_requests (items : list CartItem.t) (i : nat)
    (responses : nat -> Response Product.t) (productMap : gmap string Product.t) (s : App) :
  let out := CartModal.fetchEach items i responses productMap s in
  after out = s /\
  requests (events out) = map (fun item => GetProduct (CartItem.product_id item)) items.
Proof.
  revert i productMap.
  induction items as [|item items IH]; intros i productMap; [split; reflexivity|].
  cbv zeta. rewrite fetchEach_unit. cbv zeta.
  match goal with
  | |- context [CartModal.fetchEach items (S i) responses ?m s] =>
      destruct (IH (S i) m) as [Hafter Hrequests]
  end.
  split; [exact Hafter|].
  unfold events at 1. simpl snd. unfold requests in *. simpl omap.
  rewrite omap_app, Hrequests.
  destruct (responses i); reflexivity.
Qed.

(** The products the loop collects do not depend on the state it runs
    in. *)
Lemma fetchEach_value (items : list CartItem.t) (i : nat)
    (responses : nat -> Response Product.t) (productMap : gmap string Product.t) (s s' : App) :
  value (CartModal.fetchEach items i responses productMap s)
  = value (CartModal.fetchEach items i responses productMap s').
Proof.
  revert i productMap.
  induction items as [|item items IH]; intros i productMap; [reflexivity|].
  rewrite !fetchEach_unit. cbv zeta. unfold value at 1 3. simpl fst. apply IH.
Qed.

(** The effect leaves the state alone, [products] apart, which it
    replaces when the cart has items. *)
Lemma cartItemsEffect_run (responses : nat -> Response Product.t) (s : App) :
  CartModal.cartItemsEffect responses s =
  if (0 <? length (cartItems s))%nat
  then (tt,
        withProducts (value (CartModal.fetchEach (cartItems s) 0%nat responses ∅ s)) s,
        events (CartModal.fetchEach (cartItems s) 0%nat responses ∅ s) ++ [])
  else (tt, s, []).
Proof.
  unfold CartModal.cartItemsEffect, CartModal.fetchProductDetails, read, mbind, Act_bind.
  destruct (0 <? length (cartItems s))%nat; [|reflexivity].
  destruct (fetchEach_requests (cartItems s) 0%nat responses ∅ s) as [Hafter _].
  cbv zeta in Hafter.
  destruct (CartModal.fetchEach (cartItems s) 0%nat responses ∅ s) as [[m s1] log].
  unfold after in Hafter. simpl in Hafter. subst s1. reflexivity.
Qed.

(** ** The count of the cart in reachable states *)

Lemma fetchCart_resume_countIsSum (r : Request) (response : Response (list CartItem.t))
    (s : App) :
  countIsSum s -> countIsSum (after (CartProvider.fetchCart_resume r response s)).
Proof.
  intros Hs. destruct response as [data|detail]; [|exact Hs].
  unfold countIsSum, after. simpl.
  rewrite fold_left_quantities. lia.
Qed.

Lemma fetchCart_countIsSum (response : Response (list CartItem.t)) (s : App) :
  countIsSum s -> countIsSum (after (CartProvider.fetchCart response s)).
Proof.
  intros Hs. destruct response as [data|detail]; [|exact Hs].
  rewrite fetchCart_resolved. unfold countIsSum, after. simpl.
  rewrite fold_left_quantities. lia.
Qed.

Lemma fetchCart_session (response : Response (list CartItem.t)) (s : App) :
  token (after (CartProvider.fetchCart response s)) = token s /\
  user (after (CartProvider.fetchCart response s)) = user s.
Proof. destruct response; split; reflexivity. Qed.

Lemma fetchUser_resume_countIsSum (r : Request) (response : Response UserProfile.t) (s : App) :
  countIsSum s -> countIsSum (after (AuthProvider.fetchUser_resume r response s)).
Proof. intros Hs. destruct response; exact Hs. Qed.

Lemma emptied_countIsSum (s : App) : countIsSum (emptied s).
Proof. reflexivity. Qed.

Lemma tokenEffects_countIsSum (server : Server) (s : App) :
  countIsSum s -> countIsSum (after (tokenEffects server s)).
Proof.
  intros Hs. rewrite tokenEffects_run.
  destruct (Js.truthy_opt (token s)); [|reflexivity].
  cbv zeta. destruct (meFirst server); rewrite after_run.
  - apply fetchCart_resume_countIsSum.
    destruct (resolved (me server));
      [apply fetchUser_resume_countIsSum, Hs | apply emptied_countIsSum].
  - destruct (resolved (me server)); [|apply emptied_countIsSum].
    apply fetchUser_resume_countIsSum, fetchCart_resume_countIsSum, Hs.
Qed.

Lemma commit_countIsSum (prev : option string) (server : Server) (s : App) :
  countIsSum s -> countIsSum (after (commit prev server s)).
Proof.
  intros Hs. rewrite commit_run.
  destruct (bool_decide (token s = prev)); [exact Hs|].
  apply tokenEffects_countIsSum, Hs.
Qed.

Lemma cart_handlers_after (g : Gesture) (resync : Response (list CartItem.t)) (s : App) :
  match g with
  | AddToCart _ _ response | RemoveFromCart _ response =>
      after (handle g resync s)
      = if resolved response then after (CartProvider.fetchCart resync s) else s
  | _ => True
  end.
Proof.
  destruct g as [| | |productId size [[]|detail]|itemId [[]|detail]]; try exact I.
  - simpl handle. rewrite addToCart_resolved. reflexivity.
  - reflexivity.
  - simpl handle. rewrite removeFromCart_resolved. reflexivity.
  - reflexivity.
Qed.

(** No handler breaks the count: the session handlers leave the cart as
    it is, and the cart handlers change it by a fetch only. *)
Lemma handle_countIsSum (g : Gesture) (resync : Response (list CartItem.t)) (s : App) :
  countIsSum s -> countIsSum (after (handle g resync s)).
Proof.
  intros Hs. pose proof (cart_handlers_after g resync s) as Hafter.
  destruct g as [email password [t|detail] | email password full_name [[]|detail] |
                 | productId size response | itemId response];
    try exact Hs.
  - rewrite Hafter. destruct (resolved response); [apply fetchCart_countIsSum, Hs | exact Hs].
  - rewrite Hafter. destruct (resolved response); [apply fetchCart_countIsSum, Hs | exact Hs].
Qed.

Lemma reachable_countIsSum (s : App) : reachable s -> countIsSum s.
Proof.
  induction 1 as [stored server | s g resync server _ IH Hen | s responses _ IH].
  - apply tokenEffects_countIsSum. reflexivity.
  - rewrite gesture_after. apply commit_countIsSum, handle_countIsSum, IH.
  - rewrite cartItemsEffect_run.
    destruct (0 <? length (cartItems s))%nat; exact IH.
Qed.

(** ** The session store *)

Lemma login_rejected (s : App) email password detail :
  AuthProvider.login email password (Rejected detail) s =
  (false, s,
   [Issued (PostAuthLogin email password); Settled (PostAuthLogin email password) false;
    ToastError "Email ou mot de passe incorrect"]).
Proof. reflexivity. Qed.

(** A user's logout and the renders that follow it. *)
Lemma gesture_logout (s : App) (server : Server) :
  gesture AuthProvider.logout server s =
  (tt,
   match token s with
   | Some _ => mkApp None None None [] 0 (products s)
   | None => mkApp None None None (cartItems s) (cartCount s) (products s)
   end,
   [ToastSuccess "Déconnexion réussie"]).
Proof.
  destruct s as [u [t|] stored items count prods], server as [profile data []];
    reflexivity.
Qed.

(** C5. After [logout] and the render it causes, the token is gone from
    localStorage and from the state, the user is null, the cart is empty
    and its count is 0; a second [logout] leaves that state as it is and
    raises no error: all it does is show its toast.  The state before is
    any state in which a session without a token has an empty cart. *)
Theorem logout_clears_session_and_cart (s : App) (server : Server) :
  loggedOutCartEmpty s ->
  let once := gesture AuthProvider.logout server s in
  let twice := gesture AuthProvider.logout server (after once) in
  loggedOut (after once) /\
  after twice = after once /\
  events twice = [ToastSuccess "Déconnexion réussie"].
Proof.
  intros Hinv once twice. subst once twice.
  rewrite !gesture_logout. unfold loggedOut, after, events. simpl fst; simpl snd.
  destruct s as [u [t|] stored items count prods]; simpl.
  - repeat split.
  - destruct (Hinv eq_refl) as [Hitems Hcount]. simpl in Hitems, Hcount.
    subst items count. repeat split.
Qed.

Lemma logout_clears_session_and_cart_witness :
  loggedOutCartEmpty shopping /\
  loggedOut (after (gesture AuthProvider.logout offline shopping)).
Proof.
  split.
  - unfold loggedOutCartEmpty. simpl. discriminate.
  - apply (logout_clears_session_and_cart shopping offline).
    unfold loggedOutCartEmpty. simpl. discriminate.
Defined.

(** C7. A login whose request is rejected, for whatever reason, returns
    false and leaves the whole state (token, user, localStorage, cart) as
    it was; it shows one toast, the same text whatever the email, the
    password and the error were; and the only request made, the renders
    after it included, is the login itself: none goes to a cart
    endpoint. *)
Theorem login_failure_leaves_session (s : App) (email password : string)
    (detail : option string) (server : Server) :
  let out := gesture (AuthProvider.login email password (Rejected detail)) server s in
  value out = false /\
  after out = s /\
  notifications (events out) = [ToastError "Email ou mot de passe incorrect"] /\
  requests (events out) = [PostAuthLogin email password] /\
  Forall (fun r => cartEndpoint r = false) (requests (events out)).
Proof.
  intros out. subst out.
  rewrite gesture_same_token by reflexivity. rewrite login_rejected.
  repeat split. repeat constructor.
Qed.

(** C6, as stated, fails: the logout forced by a failed [fetchUser] is the
    same [logout] as the user's, and shows its toast. *)
Lemma forced_logout_is_not_silent :
  ~ silent (events (AuthProvider.fetchUser (Rejected None) (initial (Some "stale")))).
Proof. intros H. discriminate H. Qed.

(** C6, amended. Every call of [login], [register] and [logout] shows
    exactly one toast.  A [fetchUser] that fails logs to the console and
    logs out, which shows the one toast of [logout]; after it the user is
    null and the token is gone from the state and from localStorage.  A
    [fetchUser] that succeeds shows nothing. *)
Theorem session_operations_notify_once (s : App) (email password full_name : string)
    (loginResponse : Response string) (registerResponse : Response unit)
    (profile : UserProfile.t) (detail : option string) :
  length (notifications (events (AuthProvider.login email password loginResponse s))) = 1%nat /\
  length (notifications
            (events (AuthProvider.register email password full_name registerResponse s))) = 1%nat /\
  length (notifications (events (AuthProvider.logout s))) = 1%nat /\
  (let forced := AuthProvider.fetchUser (Rejected detail) s in
   events forced =
     [Issued (GetAuthMe (token s)); Settled (GetAuthMe (token s)) false;
      ConsoleError "Failed to fetch user:"; ToastSuccess "Déconnexion réussie"] /\
   notifications (events forced) = [ToastSuccess "Déconnexion réussie"] /\
   user (after forced) = None /\
   token (after forced) = None /\
   localStorage (after forced) = None) /\
  notifications (events (AuthProvider.fetchUser (Resolved profile) s)) = [].
Proof.
  repeat split.
  - destruct loginResponse; reflexivity.
  - destruct registerResponse; reflexivity.
Qed.

(** ** The cart enrichment resolver *)

Lemma Qplus_zero (x : Q) : (x + 0)%Q = x.
Proof.
  destruct x as [n d]. unfold Qplus. simpl.
  rewrite Z.mul_1_r, Z.add_0_r, Pos.mul_1_r. reflexivity.
Qed.

Section Resolver.
Variable products : gmap string Product.t.

(** [total] never throws: the property of the product is read only
    where the product is truthy.  It adds what each line gives. *)
Lemma total_lines (items : list CartItem.t) :
  CartModal.total items products
  = Some (fold_left JsNumber.plus (map (lineNumber products) items) (JsNumber.Num 0)).
Proof.
  unfold CartModal.total.
  match goal with |- CartModal.reduce ?f _ _ = _ => set (callback := f) end.
  generalize (JsNumber.Num 0) as sum.
  induction items as [|item items IH]; intros sum; [reflexivity|].
  simpl map. simpl fold_left. rewrite <- IH. simpl CartModal.reduce.
  assert (Hstep : callback sum item
                  = Some (JsNumber.plus sum (lineNumber products item))).
  { unfold callback, lineNumber.
    destruct (JsObject.get products (CartItem.product_id item)); reflexivity. }
  rewrite Hstep. reflexivity.
Qed.

Lemma plainIds_ownOrAbsent (items : list CartItem.t) :
  plainIds items -> Forall (ownOrAbsent products) items.
Proof.
  intros Hplain. eapply Forall_impl; [exact Hplain|].
  intros item Hitem _. exact Hitem.
Qed.

Lemma lineNumber_plain (item : CartItem.t) :
  ownOrAbsent products item ->
  lineNumber products item = JsNumber.Num (default 0%Q (lineOf products item)).
Proof.
  unfold ownOrAbsent, lineNumber, lineOf, JsObject.get.
  destruct (products !! CartItem.product_id item); [reflexivity|].
  intros Hplain. rewrite (Hplain eq_refl). reflexivity.
Qed.

Lemma lineNumber_prototype (item : CartItem.t) :
  readsPrototype products item -> lineNumber products item = JsNumber.NaN.
Proof.
  intros [Hinherited Hnone]. unfold lineNumber, JsObject.get.
  rewrite Hnone, Hinherited. reflexivity.
Qed.

Lemma fold_plain (items : list CartItem.t) (sum : Q) :
  Forall (ownOrAbsent products) items ->
  fold_left JsNumber.plus (map (lineNumber products) items) (JsNumber.Num sum)
  = JsNumber.Num (fold_left Qplus (omap (lineOf products) items) sum).
Proof.
  intros Hplain. revert sum.
  induction Hplain as [|item items Hitem _ IH]; intros sum; [reflexivity|].
  simpl map. simpl fold_left. rewrite (lineNumber_plain item Hitem).
  change (omap (lineOf products) (item :: items))
    with (from_option (fun line => line :: omap (lineOf products) items)
            (omap (lineOf products) items) (lineOf products item)).
  destruct (lineOf products item) as [line|]; simpl.
  - apply IH.
  - rewrite Qplus_zero. apply IH.
Qed.

(** NaN stays: once a line gives NaN the sum is NaN. *)
Lemma fold_NaN (lines : list JsNumber.t) :
  fold_left JsNumber.plus lines JsNumber.NaN = JsNumber.NaN.
Proof. induction lines as [|line lines IH]; [reflexivity | exact IH]. Qed.

Lemma plus_NaN (sum : JsNumber.t) : JsNumber.plus sum JsNumber.NaN = JsNumber.NaN.
Proof. destruct sum; reflexivity. Qed.

Lemma plus_zero (sum : JsNumber.t) : JsNumber.plus sum (JsNumber.Num 0) = sum.
Proof. destruct sum; simpl; [rewrite Qplus_zero|]; reflexivity. Qed.

Lemma total_Qsum (items : list CartItem.t) :
  Forall (ownOrAbsent products) items ->
  CartModal.total items products
  = Some (JsNumber.Num (Qsum (omap (lineOf products) items))).
Proof. intros Hplain. rewrite total_lines, (fold_plain items 0 Hplain). reflexivity. Qed.

Lemma renderItem_rowOf (item : CartItem.t) :
  ownOrAbsent products item ->
  CartModal.renderItem products item
  = Some (default CartModal.Null (rowOf products item)).
Proof.
  unfold ownOrAbsent, CartModal.renderItem, rowOf, JsObject.get.
  destruct (products !! CartItem.product_id item); [reflexivity|].
  intros Hplain. rewrite (Hplain eq_refl). reflexivity.
Qed.

Lemma renderItems_rows (items : list CartItem.t) :
  Forall (ownOrAbsent products) items ->
  CartModal.renderItems items products
  = Some (map (fun item => default CartModal.Null (rowOf products item)) items).
Proof.
  unfold CartModal.renderItems.
  induction 1 as [|item items Hitem _ IH]; [reflexivity|].
  simpl. rewrite (renderItem_rowOf item Hitem), IH. reflexivity.
Qed.

Lemma shown_rows (items : list CartItem.t) :
  CartModal.shown (map (fun item => default CartModal.Null (rowOf products item)) items)
  = omap (rowOf products) items.
Proof.
  induction items as [|item items IH]; [reflexivity|].
  change (CartModal.shown
            (default CartModal.Null (rowOf products item) ::
             map (fun item => default CartModal.Null (rowOf products item)) items)
          = from_option (fun row => row :: omap (rowOf products) items)
              (omap (rowOf products) items) (rowOf products item)).
  rewrite <- IH.
  destruct (rowOf products item) as [row|] eqn:Hrow; [|reflexivity].
  unfold rowOf in Hrow.
  destruct (products !! CartItem.product_id item); [|discriminate Hrow].
  injection Hrow as <-. reflexivity.
Qed.

End Resolver.

(** C4. The code misses a case of the claim.  [products] is a plain
    object, and [products[item.product_id]] finds the members of
    [Object.prototype] too.  An item whose product id is the name of
    such a member (constructor, toString, ...) and whose product has not
    resolved is not taken for unresolved: it adds NaN to the total, not
    0, so that the total of every cart that holds it is NaN, and it is
    rendered as a row without image and without price, not as null. *)
Theorem unresolved_prototype_id_breaks_total
    (products : gmap string Product.t) (item : CartItem.t) :
  readsPrototype products item ->
  CartModal.total [item] products = Some JsNumber.NaN /\
  CartModal.renderItem products item
  = Some (CartModal.Row (CartItem.id item) None
            (JsObject.memberName (CartItem.product_id item))
            (CartItem.size item) None (CartItem.quantity item)) /\
  forall before rest : list CartItem.t,
    CartModal.total (before ++ item :: rest) products = Some JsNumber.NaN.
Proof.
  intros Hreads. pose proof (lineNumber_prototype products item Hreads) as Hline.
  split; [|split].
  - rewrite total_lines. simpl. rewrite Hline. reflexivity.
  - destruct Hreads as [Hinherited Hnone].
    unfold CartModal.renderItem, JsObject.get. rewrite Hnone, Hinherited. reflexivity.
  - intros before rest. rewrite total_lines, map_app, fold_left_app. simpl.
    rewrite Hline, plus_NaN, fold_NaN. reflexivity.
Qed.

Lemma unresolved_prototype_id_breaks_total_witness :
  readsPrototype ∅ constructorLine /\
  CartModal.total [constructorLine] ∅ = Some JsNumber.NaN /\
  CartModal.renderItem ∅ constructorLine
  = Some (CartModal.Row "i4" None (Some "Object") 42 None 1).
Proof.
  split; [split; reflexivity|].
  split; apply (unresolved_prototype_id_breaks_total ∅ constructorLine); split; reflexivity.
Defined.

(** Two lines, the product of the first one resolved: the total is
    2 x 120 and one row is shown. *)
Example total_sample :
  CartModal.total [line1; line2] {[ "p1" := airMax ]} = Some (JsNumber.Num 240) /\
  CartModal.shown <$> CartModal.renderItems [line1; line2] {[ "p1" := airMax ]}
  = Some [CartModal.Row "i1" (Some "air-max.png") (Some "Air Max") 42 (Some 120%Q) 2].
Proof. split; reflexivity. Qed.

(** C10, as stated, fails: with the product of the cart items already in
    [products], the effect fetches it again. *)
Lemma cached_product_is_fetched_again :
  ~ fetchesOnlyUncached (fun _ => Resolved airMax) cachedCart.
Proof. intros H. vm_compute in H. discriminate H. Qed.

(** It fetches it once for each of the two lines. *)
Example same_product_fetched_per_line :
  requests (events (CartModal.cartItemsEffect (fun _ => Resolved airMax) cachedCart))
  = [GetProduct "p1"; GetProduct "p1"].
Proof. reflexivity. Qed.

(** C10, amended. On a change of the cart items the effect sends one
    product request per cart item, in the order of the cart, whether or
    not the product is already in [products] (two items of one product
    make two requests); what [products] held before plays no part in the
    map that results; and for an empty cart nothing is sent and the state
    stays as it is. *)
Theorem resolver_fetches_every_item (s : App) (responses : nat -> Response Product.t) :
  let out := CartModal.cartItemsEffect responses s in
  requests (events out)
  = map (fun item => GetProduct (CartItem.product_id item)) (cartItems s) /\
  (forall cached : gmap string Product.t,
     requests (events (CartModal.cartItemsEffect responses (withProducts cached s)))
     = requests (events out) /\
     (cartItems s <> [] ->
      products (after (CartModal.cartItemsEffect responses (withProducts cached s)))
      = products (after out))) /\
  (cartItems s = [] -> after out = s /\ events out = []).
Proof.
  assert (Hrequests : forall s0 : App,
    requests (events (CartModal.cartItemsEffect responses s0))
    = map (fun item => GetProduct (CartItem.product_id item)) (cartItems s0)).
  { intros s0. rewrite cartItemsEffect_run.
    destruct (0 <? length (cartItems s0))%nat eqn:Hlen.
    - unfold events at 1. simpl snd. rewrite app_nil_r.
      apply (fetchEach_requests (cartItems s0) 0%nat responses ∅ s0).
    - destruct (cartItems s0); [reflexivity | discriminate Hlen]. }
  intros out. subst out. split; [apply Hrequests|]. split.
  - intros cached. split; [rewrite !Hrequests; reflexivity|].
    intros Hitems. rewrite !cartItemsEffect_run.
    change (cartItems (withProducts cached s)) with (cartItems s).
    destruct (0 <? length (cartItems s))%nat eqn:Hlen.
    + unfold after. simpl. apply fetchEach_value.
    + destruct (cartItems s); [contradiction | discriminate Hlen].
  - intros Hempty. rewrite cartItemsEffect_run, Hempty. split; reflexivity.
Qed.

(** * Further properties *)

(** ** More on the catalogue filter *)

Lemma filter_swap {A} (f g : A -> bool) (l : list A) :
  List.filter g (List.filter f l) = List.filter f (List.filter g l).
Proof.
  rewrite !filter_twice. apply filter_same_test. intros x. apply andb_comm.
Qed.

Lemma filter_narrows {A} (f g : A -> bool) (l : list A) :
  (forall x, f x = true -> g x = true) ->
  sublist (List.filter f l) (List.filter g l).
Proof.
  intros Hfg. induction l as [|x l IH]; simpl; [constructor|].
  destruct (f x) eqn:Hf.
  - rewrite (Hfg x Hf). apply sublist_skip, IH.
  - destruct (g x); [apply sublist_cons|]; exact IH.
Qed.

(** X1. Criteria applied one after the other give what they give
    together, in any order: filtering by category, then the result by
    brand, then that by search term, is [filterProducts] with the three
    at once; and two filterings commute. *)
Theorem filterProducts_composes
    (products : list Product.t) (category brand term category' brand' term' : string) :
  Home.filterProducts
    (Home.filterProducts (Home.filterProducts products category "all" "") "all" brand "")
    "all" "all" term
  = Home.filterProducts products category brand term /\
  Home.filterProducts (Home.filterProducts products category brand term) category' brand' term'
  = Home.filterProducts (Home.filterProducts products category' brand' term') category brand term.
Proof.
  rewrite !filterProducts_one_pass. split.
  - rewrite !filter_twice. apply filter_same_test. intros p. unfold keeps.
    change (String.eqb "all" "all") with true. change (String.eqb "" "") with true.
    cbn [orb andb]. rewrite ?andb_true_r, ?andb_assoc. reflexivity.
  - apply filter_swap.
Qed.

(** X2. Relaxing a criterion never loses a product: the result for a
    category, a brand and a search term is a subsequence of the result
    with the category set to "all", of the one with the brand set to
    "all", and of the one with the search term emptied. *)
Theorem filterProducts_relaxing
    (products : list Product.t) (category brand term : string) :
  sublist (Home.filterProducts products category brand term)
          (Home.filterProducts products "all" brand term) /\
  sublist (Home.filterProducts products category brand term)
          (Home.filterProducts products category "all" term) /\
  sublist (Home.filterProducts products category brand term)
          (Home.filterProducts products category brand "").
Proof.
  rewrite !filterProducts_one_pass.
  repeat split; apply filter_narrows; intros p; unfold keeps;
    change (String.eqb "all" "all") with true; change (String.eqb "" "") with true;
    cbn [orb]; rewrite !andb_true_iff; tauto.
Qed.

Lemma lowerCodeUnit_twice (c : ascii) :
  Js.lowerCodeUnit (Js.lowerCodeUnit c) = Js.lowerCodeUnit c.
Proof.
  unfold Js.lowerCodeUnit at 2 3. destruct (Js.isUpperCase c) eqn:Hc.
  - unfold Js.lowerCodeUnit. rewrite (isUpperCase_small c Hc). reflexivity.
  - unfold Js.lowerCodeUnit. rewrite Hc. reflexivity.
Qed.

Lemma toLowerCase_twice (s : string) :
  Js.toLowerCase (Js.toLowerCase s) = Js.toLowerCase s.
Proof.
  induction s as [|c s IH]; [reflexivity|].
  simpl. rewrite lowerCodeUnit_twice, IH. reflexivity.
Qed.

Lemma truthy_toLowerCase (s : string) : Js.truthy (Js.toLowerCase s) = Js.truthy s.
Proof. destruct s; reflexivity. Qed.

(** X3. The search depends on the term only up to case: two terms that
    are equal letter by letter, ignoring case, select the same products. *)
Theorem filterProducts_term_case
    (products : list Product.t) (category brand term term' : string) :
  equalIgnoringCase term term' ->
  Home.filterProducts products category brand term
  = Home.filterProducts products category brand term'.
Proof.
  intros Hcase. apply toLowerCase_equalIgnoringCase in Hcase.
  unfold Home.filterProducts.
  rewrite <- (truthy_toLowerCase term), <- (truthy_toLowerCase term'), Hcase.
  reflexivity.
Qed.

Lemma filterProducts_term_case_witness :
  equalIgnoringCase "BOOT" "boot" /\
  Home.filterProducts [airMax; classicBoot] "all" "all" "BOOT"
  = Home.filterProducts [airMax; classicBoot] "all" "all" "boot".
Proof.
  assert (equalIgnoringCase "BOOT" "boot") as Hcase.
  { apply toLowerCase_equalIgnoringCase. reflexivity. }
  split; [exact Hcase|].
  apply (filterProducts_term_case [airMax; classicBoot] "all" "all" "BOOT" "boot" Hcase).
Defined.

(** ** More on the session store *)

Lemma fetchUser_resolved (s : App) (profile : UserProfile.t) :
  AuthProvider.fetchUser (Resolved profile) s =
  (tt, mkApp (Some profile) (token s) (localStorage s) (cartItems s) (cartCount s) (products s),
   [Issued (GetAuthMe (token s)); Settled (GetAuthMe (token s)) true]).
Proof. reflexivity. Qed.

Lemma fetchUser_rejected (s : App) (detail : option string) :
  AuthProvider.fetchUser (Rejected detail) s =
  (tt, mkApp None None None (cartItems s) (cartCount s) (products s),
   [Issued (GetAuthMe (token s)); Settled (GetAuthMe (token s)) false;
    ConsoleError "Failed to fetch user:"; ToastSuccess "Déconnexion réussie"]).
Proof. reflexivity. Qed.

Lemma login_resolved (s : App) email password access_token :
  AuthProvider.login email password (Resolved access_token) s =
  (true,
   mkApp (user s) (Some access_token) (Some access_token)
     (cartItems s) (cartCount s) (products s),
   [Issued (PostAuthLogin email password); Settled (PostAuthLogin email password) true;
    ToastSuccess "Connexion réussie!"]).
Proof. reflexivity. Qed.

(** The render after a token that is new and not empty runs the
    effects. *)
Lemma commit_new_token (prev : option string) (server : Server) (s : App) (t : string) :
  token s = Some t -> Some t <> prev ->
  commit prev server s = tokenEffects server s.
Proof.
  intros Htoken Hnew. rewrite commit_run.
  rewrite bool_decide_eq_false_2 by (rewrite Htoken; exact Hnew). reflexivity.
Qed.

Lemma requests_app (log log' : list Event) :
  requests (log ++ log') = requests log ++ requests log'.
Proof. apply omap_app. Qed.

Lemma notifications_app (log log' : list Event) :
  notifications (log ++ log') = notifications log ++ notifications log'.
Proof. apply List.filter_app. Qed.

Lemma fetchCart_log (response : Response (list CartItem.t)) (s : App) :
  requests (events (CartProvider.fetchCart response s)) = [GetCart (token s)] /\
  notifications (events (CartProvider.fetchCart response s)) = [].
Proof. destruct response; split; reflexivity. Qed.

Lemma Zsum_quantities (items : list CartItem.t) :
  fold_left (fun sum item => sum + CartItem.quantity item) items 0
  = Zsum (map CartItem.quantity items).
Proof. rewrite fold_left_quantities. apply Z.add_0_l. Qed.

(** X4. A login that succeeds with a token that is new and not empty
    returns true, stores the token in the state and in localStorage, and
    the render that follows fetches the cart and the user with the new
    token as bearer, the cart's request going out first.  When the user
    fetch succeeds, in whichever order the two answers come, the session
    is that user's, the cart is the server's answer (or what it was, if
    the cart fetch failed), and the only toast is the one of the
    login. *)
Theorem login_success_starts_session
    (s : App) (email password t : string) (profile : UserProfile.t)
    (cartResponse : Response (list CartItem.t)) (userFirst : bool) :
  Some t <> token s -> Js.truthy t = true ->
  let out := gesture (AuthProvider.login email password (Resolved t))
               (mkServer (Resolved profile) cartResponse userFirst) s in
  value out = true /\
  requests (events out) = [PostAuthLogin email password; GetCart (Some t); GetAuthMe (Some t)] /\
  notifications (events out) = [ToastSuccess "Connexion réussie!"] /\
  user (after out) = Some profile /\
  token (after out) = Some t /\
  localStorage (after out) = Some t /\
  cartItems (after out)
  = match cartResponse with Resolved data => data | Rejected _ => cartItems s end.
Proof.
  intros Hnew Ht out. subst out.
  rewrite gesture_run, login_resolved, after_run, events_run, value_run.
  rewrite (commit_new_token _ _ _ t) by (reflexivity || assumption).
  rewrite tokenEffects_run. simpl token. simpl Js.truthy_opt. rewrite Ht.
  destruct userFirst, cartResponse; repeat split.
Qed.

Lemma login_success_starts_session_witness :
  Some "tok" <> token (initial None) /\ Js.truthy "tok" = true /\
  user (after (gesture (AuthProvider.login "ada@example.org" "secret" (Resolved "tok"))
                 (mkServer (Resolved ada) (Resolved [line1]) true) (initial None)))
  = Some ada.
Proof.
  split; [discriminate|]. split; [reflexivity|].
  apply (login_success_starts_session (initial None) "ada@example.org" "secret" "tok"
           ada (Resolved [line1]) true); [discriminate | reflexivity].
Defined.

(** X5. When the user fetch that follows a successful login is refused,
    [login] has still returned true and shown its toast; the forced
    logout then shows the toast of [logout], and the session ends
    without user and without token, with nothing in localStorage.  The
    cart ends empty when its answer came before the refusal.  When it
    comes after, the cart emptied by the logout is filled again: the
    session is logged out and the cart is the server's answer, with its
    count (it is empty only if the cart fetch failed too). *)
Theorem login_then_refused_profile_logs_out
    (s : App) (email password t : string) (detail : option string)
    (cartResponse : Response (list CartItem.t)) (userFirst : bool) :
  Some t <> token s -> Js.truthy t = true ->
  let out := gesture (AuthProvider.login email password (Resolved t))
               (mkServer (Rejected detail) cartResponse userFirst) s in
  value out = true /\
  requests (events out) = [PostAuthLogin email password; GetCart (Some t); GetAuthMe (Some t)] /\
  notifications (events out)
  = [ToastSuccess "Connexion réussie!"; ToastSuccess "Déconnexion réussie"] /\
  user (after out) = None /\ token (after out) = None /\ localStorage (after out) = None /\
  cartItems (after out)
  = (if userFirst
     then match cartResponse with Resolved data => data | Rejected _ => [] end
     else []) /\
  cartCount (after out) = Zsum (map CartItem.quantity (cartItems (after out))).
Proof.
  intros Hnew Ht out. subst out.
  rewrite gesture_run, login_resolved, after_run, events_run, value_run.
  rewrite (commit_new_token _ _ _ t) by (reflexivity || assumption).
  rewrite tokenEffects_run. simpl token. simpl Js.truthy_opt. rewrite Ht.
  destruct userFirst, cartResponse as [data|detail']; repeat split.
  apply Zsum_quantities.
Qed.

Lemma login_then_refused_profile_logs_out_witness :
  Some "tok" <> token (initial None) /\ Js.truthy "tok" = true /\
  token (after (gesture (AuthProvider.login "ada@example.org" "secret" (Resolved "tok"))
                  (mkServer (Rejected None) (Resolved [line1]) true) (initial None)))
  = None /\
  cartItems (after (gesture (AuthProvider.login "ada@example.org" "secret" (Resolved "tok"))
                      (mkServer (Rejected None) (Resolved [line1]) true) (initial None)))
  = [line1].
Proof.
  split; [discriminate|]. split; [reflexivity|].
  split;
    apply (login_then_refused_profile_logs_out (initial None) "ada@example.org" "secret" "tok"
             None (Resolved [line1]) true); solve [discriminate | reflexivity].
Defined.

(** X6. At the first render a stored token that is not empty is used to
    fetch the cart and the user.  If the user fetch succeeds, the user is
    set, the token is kept, and nothing is shown.  If it is refused (a
    stale token), the logout toast is shown and the session ends without
    user and without token, the token removed from localStorage; the
    cart ends empty when its answer came before the refusal, and holds
    the server's answer when it came after. *)
Theorem mount_resolves_stored_token (t : string) (server : Server) :
  Js.truthy t = true ->
  let out := mount server (initial (Some t)) in
  requests (events out) = [GetCart (Some t); GetAuthMe (Some t)] /\
  match me server with
  | Resolved profile =>
      user (after out) = Some profile /\ token (after out) = Some t /\
      localStorage (after out) = Some t /\ notifications (events out) = []
  | Rejected _ =>
      user (after out) = None /\ token (after out) = None /\
      localStorage (after out) = None /\
      notifications (events out) = [ToastSuccess "Déconnexion réussie"] /\
      cartItems (after out)
      = (if meFirst server
         then match cart server with Resolved data => data | Rejected _ => [] end
         else [])
  end.
Proof.
  intros Ht out. subst out. unfold mount.
  rewrite tokenEffects_run. simpl token. simpl Js.truthy_opt. rewrite Ht.
  destruct server as [[profile|detail] [data|detail'] []]; repeat split.
Qed.

Lemma mount_resolves_stored_token_witness :
  Js.truthy "stale" = true /\
  token raced = None /\ cartItems raced = [line1].
Proof.
  split; [reflexivity|].
  pose proof (mount_resolves_stored_token "stale"
                (mkServer (Rejected None) (Resolved [line1]) true) eq_refl) as H.
  split; apply H.
Defined.

(** X7. With nothing in localStorage, or the empty string, the first
    render makes no request and shows nothing: the state stays the
    initial one, with no user and an empty cart. *)
Theorem mount_without_token_is_quiet (stored : option string) (server : Server) :
  Js.truthy_opt stored = false ->
  mount server (initial stored) = (tt, initial stored, []).
Proof.
  intros Hstored. unfold mount.
  rewrite tokenEffects_run. change (token (initial stored)) with stored.
  rewrite Hstored. reflexivity.
Qed.

Lemma mount_without_token_is_quiet_witness :
  Js.truthy_opt (Some "") = false /\
  mount offline (initial (Some "")) = (tt, initial (Some ""), []).
Proof.
  split; [reflexivity|].
  apply (mount_without_token_is_quiet (Some "") offline). reflexivity.
Defined.

(** X8. [register] never authenticates: whatever the server answers, the
    whole state is as before and the only request, the renders after it
    included, is the registration.  It returns true exactly when the
    request resolved.  On failure the toast shows the server's [detail]
    when there is one and it is not empty, and the fixed text
    otherwise. *)
Theorem register_never_authenticates
    (s : App) (email password full_name : string) (response : Response unit)
    (server : Server) :
  let out := gesture (AuthProvider.register email password full_name response) server s in
  after out = s /\
  value out = resolved response /\
  requests (events out) = [PostAuthRegister email password full_name] /\
  notifications (events out) =
    match response with
    | Resolved _ =>
        [ToastSuccess "Inscription réussie! Vous pouvez maintenant vous connecter."]
    | Rejected None | Rejected (Some "") => [ToastError "Erreur lors de l'inscription"]
    | Rejected (Some detail) => [ToastError detail]
    end.
Proof.
  intros out. subst out.
  rewrite gesture_same_token by (destruct response; reflexivity).
  destruct response as [[]|[[|c detail]|]]; repeat split.
Qed.

(** ** More on reachable states *)

Lemma tokenEffects_tokenStored (server : Server) (s : App) :
  tokenStored s -> tokenStored (after (tokenEffects server s)).
Proof.
  intros Hs. rewrite tokenEffects_run.
  destruct (Js.truthy_opt (token s)); [|exact Hs].
  destruct (meFirst server), (me server), (cart server); first [exact Hs | reflexivity].
Qed.

Lemma commit_tokenStored (prev : option string) (server : Server) (s : App) :
  tokenStored s -> tokenStored (after (commit prev server s)).
Proof.
  intros Hs. rewrite commit_run.
  case_bool_decide; [exact Hs | apply tokenEffects_tokenStored, Hs].
Qed.

Lemma handle_tokenStored (g : Gesture) (resync : Response (list CartItem.t)) (s : App) :
  tokenStored s -> tokenStored (after (handle g resync s)).
Proof.
  intros Hs. pose proof (cart_handlers_after g resync s) as Hafter.
  destruct g as [email password [t|detail] | email password full_name [[]|detail] |
                 | productId size response | itemId response];
    try rewrite Hafter; try first [exact Hs | reflexivity].
  - destruct (resolved response), resync; exact Hs.
  - destruct (resolved response), resync; exact Hs.
Qed.

(** X9. In every state the application reaches, localStorage holds
    exactly the token of the state: both are set by a successful login
    and both are cleared by a logout, forced or not. *)
Theorem reachable_token_is_stored (s : App) :
  reachable s -> localStorage s = token s.
Proof.
  induction 1 as [stored server | s g resync server _ IH _ | s responses _ IH].
  - apply tokenEffects_tokenStored. reflexivity.
  - rewrite gesture_after. apply commit_tokenStored, handle_tokenStored, IH.
  - rewrite cartItemsEffect_run.
    destruct (0 <? length (cartItems s))%nat; exact IH.
Qed.

Lemma loggedIn_reachable : reachable loggedIn.
Proof.
  apply reachable_gesture; [apply reachable_mount | reflexivity].
Defined.

Lemma reachable_token_is_stored_witness :
  reachable loggedIn /\ localStorage loggedIn = token loggedIn.
Proof.
  split; [exact loggedIn_reachable|].
  apply (reachable_token_is_stored loggedIn loggedIn_reachable).
Defined.

(** X10. In every state the application reaches, the cart count is the
    sum of the quantities of the cart items: the two are set together,
    by a cart fetch that succeeded and by the effect that empties the
    cart, and by nothing else.  This holds with or without a token, the
    state in which a late cart answer fills the cart of a session that
    was logged out included. *)
Theorem reachable_cart_count_is_sum (s : App) :
  reachable s ->
  cartCount s = Zsum (map CartItem.quantity (cartItems s)).
Proof. apply reachable_countIsSum. Qed.

Lemma raced_reachable : reachable raced.
Proof. apply reachable_mount. Defined.

Lemma reachable_cart_count_is_sum_witness :
  reachable raced /\
  cartCount raced = Zsum (map CartItem.quantity (cartItems raced)).
Proof.
  split; [exact raced_reachable|].
  apply (reachable_cart_count_is_sum raced raced_reachable).
Defined.

(** The application reaches a state without token and without user in
    which the cart is not empty: the refusal of a stale token came
    before the answer of the cart. *)
Example raced_state :
  reachable raced /\
  user raced = None /\ token raced = None /\ localStorage raced = None /\
  cartItems raced = [line1] /\ cartCount raced = 2 /\
  ~ loggedOutCartEmpty raced.
Proof.
  split; [exact raced_reachable|]. repeat split.
  intros H. destruct (H eq_refl) as [Hitems _]. discriminate Hitems.
Qed.

Example loggedIn_state :
  user loggedIn = Some ada /\ cartItems loggedIn = [line1; line2] /\ cartCount loggedIn = 5.
Proof. repeat split. Qed.

(** ** More on the cart *)

(** X11. A cart mutation and the renders after it leave the session
    alone (user, token, localStorage) and run no token effect: every
    request goes to a cart endpoint.  The call shows exactly one toast,
    decided by the mutation's own round trip: the success toast is shown
    even when the resynchronisation that follows fails. *)
Theorem cart_mutations_keep_session
    (s : App) (productId : string) (size : Q) (quantity : option Z) (itemId : string)
    (response : Response unit) (cart : Response (list CartItem.t)) (server : Server) :
  let added := gesture (CartProvider.addToCart productId size quantity response cart) server s in
  let removed := gesture (CartProvider.removeFromCart itemId response cart) server s in
  (user (after added) = user s /\ token (after added) = token s /\
   localStorage (after added) = localStorage s /\
   Forall (fun r => cartEndpoint r = true) (requests (events added)) /\
   notifications (events added)
   = [if resolved response then ToastSuccess "Produit ajouté au panier!"
      else ToastError "Erreur lors de l'ajout au panier"]) /\
  (user (after removed) = user s /\ token (after removed) = token s /\
   localStorage (after removed) = localStorage s /\
   Forall (fun r => cartEndpoint r = true) (requests (events removed)) /\
   notifications (events removed)
   = [if resolved response then ToastSuccess "Produit retiré du panier"
      else ToastError "Erreur lors de la suppression"]).
Proof.
  intros added removed. subst added removed.
  rewrite !gesture_same_token by (destruct response as [[]|detail], cart; reflexivity).
  destruct response as [[]|detail], cart; repeat split; repeat constructor.
Qed.

(** ** More on the cart modal *)

Lemma fetchEach_value_unit (item : CartItem.t) (rest : list CartItem.t) (i : nat)
    (responses : nat -> Response Product.t) (productMap : gmap string Product.t) (s : App) :
  value (CartModal.fetchEach (item :: rest) i responses productMap s)
  = value (CartModal.fetchEach rest (S i) responses
             match responses i with
             | Resolved data => <[CartItem.product_id item := data]> productMap
             | Rejected _ => productMap
             end s).
Proof. rewrite fetchEach_unit. reflexivity. Qed.

(** What the loop leaves in the map was there before or is the answer to
    one of its requests. *)
Lemma fetchEach_sound (items : list CartItem.t) (i : nat)
    (responses : nat -> Response Product.t) (productMap : gmap string Product.t) (s : App)
    (k : string) (p : Product.t) :
  value (CartModal.fetchEach items i responses productMap s) !! k = Some p ->
  productMap !! k = Some p \/
  exists (j : nat) (item : CartItem.t),
    items !! j = Some item /\ CartItem.product_id item = k /\
    responses (i + j)%nat = Resolved p.
Proof.
  revert i productMap.
  induction items as [|item items IH]; intros i productMap Hlookup.
  - left. exact Hlookup.
  - rewrite fetchEach_value_unit in Hlookup.
    destruct (IH _ _ Hlookup) as [Hmap | (j & item' & Hj & Hk & Hr)].
    + destruct (responses i) as [data|detail] eqn:Hi; [|left; exact Hmap].
      destruct (decide (CartItem.product_id item = k)) as [Heq|Hne].
      * right. exists 0%nat, item. rewrite Nat.add_0_r, Hi.
        subst k. rewrite lookup_insert_eq in Hmap. injection Hmap as ->. auto.
      * left. rewrite lookup_insert_ne in Hmap by exact Hne. exact Hmap.
    + right. exists (S j), item'. rewrite Nat.add_succ_r. auto.
Qed.

(** A product that was in the map, or whose request resolves, is in the
    map the loop leaves. *)
Lemma fetchEach_complete (items : list CartItem.t) (i : nat)
    (responses : nat -> Response Product.t) (productMap : gmap string Product.t) (s : App)
    (k : string) :
  (is_Some (productMap !! k) \/
   exists (j : nat) (item : CartItem.t),
     items !! j = Some item /\ CartItem.product_id item = k /\
     resolved (responses (i + j)%nat) = true) ->
  is_Some (value (CartModal.fetchEach items i responses productMap s) !! k).
Proof.
  revert i productMap.
  induction items as [|item items IH]; intros i productMap Hin.
  - destruct Hin as [Hmap | (j & item' & Hj & _)]; [exact Hmap | discriminate Hj].
  - rewrite fetchEach_value_unit. apply IH.
    destruct Hin as [Hmap | ([|j] & item' & Hj & Hk & Hr)].
    + left. destruct (responses i); [|exact Hmap].
      rewrite lookup_insert_is_Some. destruct (decide (CartItem.product_id item = k)); auto.
    + left. injection Hj as <-. rewrite Nat.add_0_r in Hr.
      destruct (responses i); [|discriminate Hr].
      subst k. rewrite lookup_insert_eq. eauto.
    + right. exists j, item'. rewrite Nat.add_succ_r in Hr. auto.
Qed.

Lemma cartItemsEffect_products (responses : nat -> Response Product.t) (s : App) :
  cartItems s <> [] ->
  products (after (CartModal.cartItemsEffect responses s))
  = value (CartModal.fetchEach (cartItems s) 0%nat responses ∅ s).
Proof.
  intros Hitems. rewrite cartItemsEffect_run.
  destruct (cartItems s) as [|item items] eqn:Hcart; [contradiction|].
  reflexivity.
Qed.

(** The entries of [products] after the effect on a cart with items. *)
Lemma fetched_products_entries (s : App) (responses : nat -> Response Product.t) :
  cartItems s <> [] ->
  let fetched := products (after (CartModal.cartItemsEffect responses s)) in
  (forall (k : string) (p : Product.t),
     fetched !! k = Some p ->
     exists (j : nat) (item : CartItem.t),
       cartItems s !! j = Some item /\ CartItem.product_id item = k /\
       responses j = Resolved p) /\
  (forall (j : nat) (item : CartItem.t),
     cartItems s !! j = Some item -> resolved (responses j) = true ->
     is_Some (fetched !! CartItem.product_id item)).
Proof.
  intros Hitems fetched. subst fetched.
  rewrite (cartItemsEffect_products responses s Hitems). split.
  - intros k p Hlookup.
    destruct (fetchEach_sound _ _ _ _ _ _ _ Hlookup) as [Hempty | Hfound].
    + rewrite lookup_empty in Hempty. discriminate Hempty.
    + exact Hfound.
  - intros j item Hj Hr. apply fetchEach_complete. right. exists j, item. auto.
Qed.

(** X12. After the effect on a cart with items, [products] holds exactly
    what the requests of this run brought: every entry is the answer to
    the request of a cart item with that product (so entries of products
    no longer in the cart are gone), and every item whose request
    resolved has its product in the map. *)
Theorem resolver_map_entries (s : App) (responses : nat -> Response Product.t) :
  cartItems s <> [] ->
  let fetched := products (after (CartModal.cartItemsEffect responses s)) in
  (forall (k : string) (p : Product.t),
     fetched !! k = Some p ->
     exists (j : nat) (item : CartItem.t),
       cartItems s !! j = Some item /\ CartItem.product_id item = k /\
       responses j = Resolved p) /\
  (forall (j : nat) (item : CartItem.t),
     cartItems s !! j = Some item -> resolved (responses j) = true ->
     is_Some (fetched !! CartItem.product_id item)).
Proof. exact (fetched_products_entries s responses). Qed.

Lemma resolver_map_entries_witness :
  cartItems cachedCart <> [] /\
  is_Some (products (after (CartModal.cartItemsEffect (fun _ => Resolved airMax) cachedCart))
             !! "p1").
Proof.
  split; [discriminate|].
  apply (proj2 (resolver_map_entries cachedCart (fun _ => Resolved airMax)
                  ltac:(discriminate)) 0%nat line1); reflexivity.
Defined.

Lemma omap_all_length {A B} (f : A -> option B) (l : list A) :
  (forall x, In x l -> is_Some (f x)) -> length (omap f l) = length l.
Proof.
  induction l as [|x l IH]; intros Hall; [reflexivity|].
  change (omap f (x :: l))
    with (match f x with Some y => y :: omap f l | None => omap f l end).
  destruct (Hall x (or_introl eq_refl)) as [y ->].
  change (length (y :: omap f l)) with (S (length (omap f l))).
  rewrite IH; [reflexivity|]. intros z Hz. apply Hall. right. exact Hz.
Qed.

(** X13. When every product request of the effect resolves, every cart
    line has its product: rendering throws nothing and shows one row per
    line. *)
Theorem resolver_all_resolved_shows_every_line
    (s : App) (responses : nat -> Response Product.t) :
  cartItems s <> [] ->
  (forall j : nat, (j < length (cartItems s))%nat -> resolved (responses j) = true) ->
  let fetched := products (after (CartModal.cartItemsEffect responses s)) in
  (forall item : CartItem.t,
     In item (cartItems s) -> is_Some (fetched !! CartItem.product_id item)) /\
  exists rows : list CartModal.Element,
    CartModal.shown <$> CartModal.renderItems (cartItems s) fetched = Some rows /\
    length rows = length (cartItems s).
Proof.
  intros Hitems Hall fetched.
  assert (Hevery : forall item : CartItem.t,
    In item (cartItems s) -> is_Some (fetched !! CartItem.product_id item)).
  { intros item Hin. apply list_elem_of_In, list_elem_of_lookup in Hin as [j Hj].
    apply (proj2 (fetched_products_entries s responses Hitems) j item Hj).
    apply Hall. apply lookup_lt_Some in Hj. exact Hj. }
  split; [exact Hevery|].
  exists (omap (rowOf fetched) (cartItems s)). split.
  - rewrite renderItems_rows.
    + exact (f_equal Some (shown_rows fetched (cartItems s))).
    + apply Forall_forall. intros item Hin Hnone.
      apply list_elem_of_In in Hin.
      destruct (Hevery item Hin) as [p Hp]. rewrite Hp in Hnone. discriminate Hnone.
  - apply omap_all_length. intros item Hin. unfold rowOf.
    destruct (Hevery item Hin) as [p ->]. simpl. eauto.
Qed.

Lemma resolver_all_resolved_shows_every_line_witness :
  cartItems cachedCart <> [] /\
  (forall j : nat, (j < length (cartItems cachedCart))%nat ->
     resolved ((fun _ : nat => Resolved airMax) j) = true) /\
  exists rows : list CartModal.Element,
    CartModal.shown <$>
      CartModal.renderItems (cartItems cachedCart)
        (products (after (CartModal.cartItemsEffect (fun _ => Resolved airMax) cachedCart)))
    = Some rows /\
    length rows = length (cartItems cachedCart).
Proof.
  split; [discriminate|]. split; [reflexivity|].
  apply (resolver_all_resolved_shows_every_line cachedCart (fun _ => Resolved airMax));
    [discriminate | reflexivity].
Defined.

(** X14. When the requests for a product all fail, [products] has no
    property of that product after the effect, even if it had one
    before.  When no product id, of the cart or this one, is the name of
    a member of [Object.prototype] (so that the resolver leaves an
    object with the prototype it started with, and the product is not
    found there), the lines of that product are rendered as null and
    add nothing to the total. *)
Theorem resolver_failed_fetch_hides_line
    (s : App) (responses : nat -> Response Product.t) (k : string) :
  cartItems s <> [] ->
  (forall (j : nat) (item : CartItem.t),
     cartItems s !! j = Some item -> CartItem.product_id item = k ->
     resolved (responses j) = false) ->
  plainIds (cartItems s) ->
  JsObject.inherited k = false ->
  let fetched := products (after (CartModal.cartItemsEffect responses s)) in
  fetched !! k = None /\
  forall item : CartItem.t,
    CartItem.product_id item = k ->
    CartModal.renderItem fetched item = Some CartModal.Null /\
    CartModal.total [item] fetched = Some (JsNumber.Num 0).
Proof.
  intros Hitems Hfailed _ Hplain fetched.
  assert (Hnone : fetched !! k = None).
  { destruct (fetched !! k) as [p|] eqn:Hlookup; [|reflexivity].
    destruct (proj1 (fetched_products_entries s responses Hitems) k p Hlookup)
      as (j & item & Hj & Hk & Hr).
    specialize (Hfailed j item Hj Hk). rewrite Hr in Hfailed. discriminate Hfailed. }
  split; [exact Hnone|]. intros item Hk. subst k. split.
  - rewrite renderItem_rowOf by (intros _; exact Hplain).
    unfold rowOf. rewrite Hnone. reflexivity.
  - rewrite total_Qsum by (constructor; [intros _; exact Hplain | constructor]).
    simpl. unfold lineOf. rewrite Hnone. reflexivity.
Qed.

Lemma resolver_failed_fetch_hides_line_witness :
  cartItems cachedCart <> [] /\
  (forall (j : nat) (item : CartItem.t),
     cartItems cachedCart !! j = Some item -> CartItem.product_id item = "p1" ->
     resolved ((fun _ : nat => @Rejected Product.t None) j) = false) /\
  plainIds (cartItems cachedCart) /\
  JsObject.inherited "p1" = false /\
  products cachedCart !! "p1" = Some airMax /\
  products (after (CartModal.cartItemsEffect (fun _ => Rejected None) cachedCart)) !! "p1"
  = None.
Proof.
  assert (Hplain : plainIds (cartItems cachedCart)) by (repeat constructor).
  split; [discriminate|]. split; [reflexivity|]. split; [exact Hplain|].
  split; [reflexivity|]. split; [reflexivity|].
  apply (resolver_failed_fetch_hides_line cachedCart (fun _ => Rejected None) "p1");
    [discriminate | reflexivity | exact Hplain | reflexivity].
Defined.

(** X22. For a cart none of whose product ids is the name of a member of
    [Object.prototype], and for every product map: the total is computed
    (no exception) and is the sum of price times quantity over the items
    whose product is in the map; the rows shown are those of the same
    items, in order; and an item of such an id whose product is not in
    the map adds exactly 0, is rendered as null, and can be removed from
    any cart without changing the total. *)
Theorem total_sums_resolved_lines
    (cartItems : list CartItem.t) (products : gmap string Product.t) :
  plainIds cartItems ->
  CartModal.total cartItems products
  = Some (JsNumber.Num (Qsum (omap (lineOf products) cartItems))) /\
  CartModal.shown <$> CartModal.renderItems cartItems products
  = Some (omap (rowOf products) cartItems) /\
  (forall item : CartItem.t,
     JsObject.inherited (CartItem.product_id item) = false ->
     products !! CartItem.product_id item = None ->
     CartModal.total [item] products = Some (JsNumber.Num 0) /\
     CartModal.renderItem products item = Some CartModal.Null /\
     forall before rest : list CartItem.t,
       CartModal.total (before ++ item :: rest) products
       = CartModal.total (before ++ rest) products).
Proof.
  intros Hplain. apply (plainIds_ownOrAbsent products) in Hplain.
  split; [apply total_Qsum, Hplain|]. split.
  - rewrite renderItems_rows by exact Hplain.
    exact (f_equal Some (shown_rows products cartItems)).
  - intros item Hitem Hnone.
    assert (Hline : lineNumber products item = JsNumber.Num 0).
    { rewrite lineNumber_plain by (intros _; exact Hitem).
      unfold lineOf. rewrite Hnone. reflexivity. }
    split; [|split].
    + rewrite total_lines. simpl. rewrite Hline. reflexivity.
    + rewrite renderItem_rowOf by (intros _; exact Hitem).
      unfold rowOf. rewrite Hnone. reflexivity.
    + intros before rest. rewrite !total_lines, !map_app, !fold_left_app. simpl.
      rewrite Hline, plus_zero. reflexivity.
Qed.

Lemma total_sums_resolved_lines_witness :
  plainIds [line1; line2] /\
  CartModal.total [line1; line2] {[ "p1" := airMax ]} = Some (JsNumber.Num 240).
Proof.
  assert (Hplain : plainIds [line1; line2]) by (repeat constructor).
  split; [exact Hplain|].
  exact (proj1 (total_sums_resolved_lines [line1; line2] {[ "p1" := airMax ]} Hplain)).
Defined.

(** ** The cart badge and the title of the cart modal *)

Lemma length_le_Zsum (items : list CartItem.t) :
  Forall (fun item => 1 <= CartItem.quantity item) items ->
  Z.of_nat (length items) <= Zsum (map CartItem.quantity items).
Proof.
  induction 1 as [|item items Hitem _ IH]; simpl; [lia|].
  unfold Zsum in *. lia.
Qed.

(** X15. The badge of the cart button shows the cart count, the title of
    the cart modal the number of lines.  When the count is the sum of the
    quantities and every line has a quantity of at least 1, the title
    never exceeds the badge, and the badge is hidden exactly when the
    modal says that the cart is empty. *)
Theorem cart_badge_and_title (s : App) :
  countIsSum s ->
  Forall (fun item => 1 <= CartItem.quantity item) (cartItems s) ->
  Z.of_nat (CartModalView.title (cartItems s)) <= cartCount s /\
  (CartButton.badge (cartCount s) = None <->
   CartModalView.emptyMessage (cartItems s) = true) /\
  (forall n : Z,
     CartButton.badge (cartCount s) = Some n ->
     n = Zsum (map CartItem.quantity (cartItems s))).
Proof.
  intros Hcount Hall. pose proof (length_le_Zsum _ Hall) as Hle.
  unfold countIsSum in Hcount. rewrite <- Hcount in Hle.
  unfold CartModalView.title, CartModalView.emptyMessage, CartButton.badge.
  split; [exact Hle|]. split.
  - rewrite Nat.eqb_eq. destruct (0 <? cartCount s) eqn:Hpos.
    + apply Z.ltb_lt in Hpos. split; [discriminate|].
      intros Hlen. destruct (cartItems s); [|discriminate Hlen].
      simpl in Hcount. lia.
    + apply Z.ltb_ge in Hpos. split; [lia | reflexivity].
  - intros n Hbadge. destruct (0 <? cartCount s); [|discriminate Hbadge].
    injection Hbadge as <-. exact Hcount.
Qed.

Lemma cart_badge_and_title_witness :
  countIsSum loggedIn /\
  Forall (fun item => 1 <= CartItem.quantity item) (cartItems loggedIn) /\
  Z.of_nat (CartModalView.title (cartItems loggedIn)) <= cartCount loggedIn.
Proof.
  split; [reflexivity|]. split; [repeat constructor; discriminate|].
  apply (cart_badge_and_title loggedIn); [reflexivity | repeat constructor; discriminate].
Defined.

(** The badge counts pairs, the title lines. *)
Example badge_is_not_title :
  CartButton.badge (cartCount loggedIn) = Some 5 /\
  CartModalView.title (cartItems loggedIn) = 2%nat.
Proof. split; reflexivity. Qed.

(** ** The login form *)

(** X16. A registration that succeeds does not log in: the session is as
    before, and the form turns to login with the email and the password
    still filled in and the name cleared.  Submitting it again sends a
    login with these same credentials, and when that succeeds the form is
    closed and emptied and the token is the one received. *)
Theorem authModal_register_then_login
    (m : AuthModal.State) (s : App) (loginResponse : Response string) (t : string)
    (registerResponse : Response unit) :
  AuthModal.isLogin m = false ->
  let registered := AuthModal.handleSubmit m loginResponse (Resolved tt) s in
  let submitted :=
    AuthModal.handleSubmit (value registered) (Resolved t) registerResponse
      (after registered) in
  after registered = s /\
  value registered
  = AuthModal.mk (AuthModal.open m) true (AuthModal.email m) (AuthModal.password m) "" /\
  requests (events registered)
  = [PostAuthRegister (AuthModal.email m) (AuthModal.password m) (AuthModal.fullName m)] /\
  requests (events submitted)
  = [PostAuthLogin (AuthModal.email m) (AuthModal.password m)] /\
  value submitted = AuthModal.mk false true "" "" "" /\
  token (after submitted) = Some t /\
  localStorage (after submitted) = Some t.
Proof.
  intros Hmode registered submitted. subst registered submitted.
  destruct m as [o [|] e p f]; [discriminate Hmode|]. repeat split.
Qed.

Lemma authModal_register_then_login_witness :
  AuthModal.isLogin (AuthModal.mk true false "ada@example.org" "secret" "Ada") = false /\
  value (AuthModal.handleSubmit (AuthModal.mk true false "ada@example.org" "secret" "Ada")
           (Rejected None) (Resolved tt) (initial None))
  = AuthModal.mk true true "ada@example.org" "secret" "".
Proof.
  split; [reflexivity|].
  apply (authModal_register_then_login
           (AuthModal.mk true false "ada@example.org" "secret" "Ada") (initial None)
           (Rejected None) "tok" (Rejected None)).
  reflexivity.
Defined.

(** X17. A submission whose request is rejected, in either mode, leaves
    the form exactly as it was (open, same mode, same fields) and the
    state unchanged, and shows one error toast: the user can submit
    again. *)
Theorem authModal_failed_submit_keeps_form
    (m : AuthModal.State) (s : App) (detail detail' : option string) :
  let out := AuthModal.handleSubmit m (Rejected detail) (Rejected detail') s in
  value out = m /\
  after out = s /\
  exists message : string, notifications (events out) = [ToastError message].
Proof.
  intros out. subst out.
  destruct m as [o [|] e p f]; repeat split; eexists; reflexivity.
Qed.

(** ** The product card *)

(** X18. With nobody logged in and the size dialog closed, the button of
    a product card only shows the toast asking to log in: the dialog
    stays closed and no request is made, whatever size and answers
    follow. *)
Theorem productCard_requires_login
    (parseFloat : string -> Q) (product : Product.t) (value : string)
    (c : ProductCard.State) (response : Response unit)
    (cart : Response (list CartItem.t)) (s : App) :
  user s = None -> ProductCard.showSizeDialog c = false ->
  ProductCard.addFlow parseFloat product value c response cart s
  = (c, s, [ToastError "Veuillez vous connecter pour ajouter au panier"]).
Proof.
  intros Huser Hclosed.
  destruct s as [u tok stored items count prods], c as [sel shown].
  simpl in Huser, Hclosed. subst u shown. reflexivity.
Qed.

Lemma productCard_requires_login_witness :
  user (initial None) = None /\
  ProductCard.showSizeDialog (ProductCard.mk "" false) = false /\
  ProductCard.addFlow (fun _ => 42%Q) airMax "42" (ProductCard.mk "" false)
    (Resolved tt) (Resolved [line1]) (initial None)
  = (ProductCard.mk "" false, initial None,
     [ToastError "Veuillez vous connecter pour ajouter au panier"]).
Proof.
  split; [reflexivity|]. split; [reflexivity|].
  apply (productCard_requires_login (fun _ => 42%Q) airMax "42" (ProductCard.mk "" false)
           (Resolved tt) (Resolved [line1]) (initial None)); reflexivity.
Defined.

(** X19. With a user logged in, the button opens the size dialog.
    Confirming without a size does nothing: no request, the dialog stays
    open.  Confirming with a size runs [addToCart] for the product of the
    card, the parsed size and the default quantity 1, closes the dialog
    and resets the selection, whatever the server answers. *)
Theorem productCard_confirm
    (parseFloat : string -> Q) (product : Product.t) (value : string)
    (c : ProductCard.State) (response : Response unit)
    (cart : Response (list CartItem.t)) (s : App) (u : UserProfile.t) :
  user s = Some u ->
  ProductCard.addFlow parseFloat product value c response cart s
  = if Js.truthy value
    then
      let added := CartProvider.addToCart (Product.id product) (parseFloat value) (Some 1)
                     response cart s in
      (ProductCard.mk "" false, after added, events added)
    else (ProductCard.mk value true, s, []).
Proof.
  intros Huser.
  destruct s as [u' tok stored items count prods], c as [sel shown].
  simpl in Huser. subst u'.
  unfold ProductCard.addFlow, ProductCard.handleAddToCart, ProductCard.confirmAddToCart,
    ProductCard.setSelectedSize, mbind, Act_bind, read, mret, Act_ret.
  simpl. destruct (Js.truthy value); [|reflexivity].
  destruct response as [[]|detail], cart as [data|detail']; reflexivity.
Qed.

Lemma productCard_confirm_witness :
  user shopping = Some ada /\
  requests (events (ProductCard.addFlow (fun _ => 42%Q) airMax "42" (ProductCard.mk "" false)
                      (Resolved tt) (Resolved [line1]) shopping))
  = [PostCartAdd (Some "tok") "p1" 42 1; GetCart (Some "tok")].
Proof.
  split; [reflexivity|].
  rewrite (productCard_confirm (fun _ => 42%Q) airMax "42" (ProductCard.mk "" false)
             (Resolved tt) (Resolved [line1]) shopping ada eq_refl).
  reflexivity.
Defined.

